(** * weather.py: geocode, current weather, hourly wind, request handler

    A shallow embedding of [src/weather.py].  Python values are a small
    dynamically typed universe ([pyval]); every function of the module is a
    computation in a state-and-exception monad [M] that reads an external
    [world] (the geocoding service, the HTTP endpoint, the wall clock and the
    random generator) and records every outgoing call in a trace.

    Conventions of the model:
    - a Python [float] is an exact rational ([Q]);
    - a character is a code point below 256;
    - [random.random()] is the next raw draw of the generator reduced to 53
      bits and divided by 2^53; [random.randint a b] is [a] plus the next raw
      draw modulo [b - a + 1];
    - [response.json()] failing raises a [RequestException] (as in the
      [requests] library since 2.27, where [JSONDecodeError] derives from it);
    - the interpreter's optional cap on the number of digits [int()] accepts
      is not modelled. *)

From Stdlib Require Import ZArith QArith Lqa Ascii String.
From stdpp Require Import base strings list gmap pretty.

Set Warnings "-register-all".
Open Scope Z_scope.

(** ** Python values *)

Inductive pyval : Type :=
| PNone
| PBool (b : bool)
| PInt (n : Z)
| PFloat (x : Q)
| PStr (s : string)
| PList (items : list pyval)
| PDict (entries : list (string * pyval)).

(** [x is None] *)
Definition py_is_none (v : pyval) : bool :=
  match v with PNone => true | _ => false end.

Definition type_name (v : pyval) : string :=
  match v with
  | PNone => "NoneType"
  | PBool _ => "bool"
  | PInt _ => "int"
  | PFloat _ => "float"
  | PStr _ => "str"
  | PList _ => "list"
  | PDict _ => "dict"
  end.

(** First binding of a key in a dict written as a list of entries. *)
Fixpoint assoc (k : string) (d : list (string * pyval)) : option pyval :=
  match d with
  | [] => None
  | (k', v) :: rest => if String.eqb k k' then Some v else assoc k rest
  end.

(** ** Exceptions, events, the outside world *)

Inductive exn_kind : Type :=
| RequestException
| AttributeError
| TypeError
| KeyError
| IndexError
| ValueError
| OtherException.

Record exn : Type := Exn { exn_kind_of : exn_kind; exn_text : string }.

Inductive outcome (A : Type) : Type :=
| Returns (a : A)
| Raises (e : exn).
Arguments Returns {A} a.
Arguments Raises {A} e.

Inductive event : Type :=
| Geocode (user_agent : string) (place : string)
| HttpGet (url : string) (params : list (string * pyval))
| Print (line : string).

Record location : Type := Location { latitude_of : Q; longitude_of : Q }.

(** What [geolocator.geocode] does: a match, no match, or an exception. *)
Inductive geocode_reply : Type :=
| GeoMatch (loc : location)
| GeoNoMatch
| GeoRaise (e : exn).

Record response : Type := Response {
  status_code : Z;
  reason : string;
  final_url : string;
  (** [inr v]: the body parses to [v]; [inl msg]: it is not JSON *)
  json_body : string + pyval
}.

(** What [requests.get] does: a response, or a transport error. *)
Inductive http_reply : Type :=
| HttpResponse (r : response)
| HttpRaise (text : string).

Record datetime : Type := Datetime {
  dt_year : nat; dt_month : nat; dt_day : nat;
  dt_hour : nat; dt_minute : nat; dt_second : nat
}.

Record world : Type := World {
  nominatim : string -> string -> geocode_reply;
  open_meteo : string -> list (string * pyval) -> http_reply;
  wall_clock : nat -> datetime;
  generator : nat -> N
}.

(** Mutable part: how many times the clock and the generator were read, and
    the calls and prints made so far, oldest first. *)
Record state : Type := State {
  clock_reads : nat;
  draws : nat;
  trace : list event
}.

(** ** The monad *)

Definition M (A : Type) : Type := world -> state -> outcome A * state.

#[global] Instance M_ret : MRet M := fun A a _ s => (Returns a, s).

#[global] Instance M_bind : MBind M := fun A B f m w s =>
  match m w s with
  | (Returns a, s') => f a w s'
  | (Raises e, s') => (Raises e, s')
  end.

(** A step that touches neither the world nor the state. *)
Definition lift {A : Type} (o : outcome A) : M A := fun _ s => (o, s).

Definition raise {A : Type} (k : exn_kind) (text : string) : M A :=
  lift (Raises (Exn k text)).

Definition emit (ev : event) : M unit :=
  fun _ s => (Returns tt, State (clock_reads s) (draws s) (trace s ++ [ev])).

(** [try: body except <kinds> as e: handler e] *)
Definition try_except {A : Type} (body : M A) (catches : exn_kind -> bool)
    (handler : exn -> M A) : M A :=
  fun w s =>
    match body w s with
    | (Returns a, s') => (Returns a, s')
    | (Raises e, s') =>
        if catches (exn_kind_of e) then handler e w s' else (Raises e, s')
    end.

(** [except requests.exceptions.RequestException] *)
Definition only_request_exception (k : exn_kind) : bool :=
  match k with RequestException => true | _ => false end.

(** [except Exception] *)
Definition any_exception (k : exn_kind) : bool := true.

(** ** Built-ins and library calls *)

Definition print (line : string) : M unit := emit (Print line).

(** [d.get(key, fallback)]; only a dict has the method. *)
Definition py_get (d : pyval) (key : string) (fallback : pyval) : M pyval :=
  match d with
  | PDict entries => mret (default fallback (assoc key entries))
  | _ => raise AttributeError
           ("'" +:+ type_name d +:+ "' object has no attribute 'get'")
  end.

(** [len(x)] *)
Definition len_of (v : pyval) : outcome Z :=
  match v with
  | PList items => Returns (Z.of_nat (length items))
  | PStr s => Returns (Z.of_nat (String.length s))
  | PDict entries => Returns (Z.of_nat (length entries))
  | _ => Raises (Exn TypeError
           ("object of type '" +:+ type_name v +:+ "' has no len()"))
  end.

Definition py_len (v : pyval) : M Z := lift (len_of v).

(** [x[i]] for an integer [i]; a negative index counts from the end.  A
    dict obtained from JSON has string keys only, so an integer key is
    missing. *)
Definition item_of (v : pyval) (i : Z) : outcome pyval :=
  match v with
  | PList items =>
      let n := Z.of_nat (length items) in
      let j := if i <? 0 then i + n else i in
      match (if j <? 0 then None else items !! Z.to_nat j) with
      | Some x => Returns x
      | None => Raises (Exn IndexError "list index out of range")
      end
  | PStr s =>
      let n := Z.of_nat (String.length s) in
      let j := if i <? 0 then i + n else i in
      match (if j <? 0 then None else String.get (Z.to_nat j) s) with
      | Some c => Returns (PStr (String c EmptyString))
      | None => Raises (Exn IndexError "string index out of range")
      end
  | PDict _ => Raises (Exn KeyError (pretty i))
  | _ => Raises (Exn TypeError
           ("'" +:+ type_name v +:+ "' object is not subscriptable"))
  end.

Definition py_index (v : pyval) (i : Z) : M pyval := lift (item_of v i).

(** [range(n)] *)
Definition py_range (n : Z) : list Z := Z.of_nat <$> seq 0 (Z.to_nat n).

(** *** [int(s)] on a string *)

(** The characters [int()] skips on both sides: tab to carriage return
    and the space, and, of the other code points below 256, the two that
    count as spaces (next line and no-break space).  The separators 28 to
    31 are not skipped. *)
Definition is_space (c : ascii) : bool :=
  let n := nat_of_ascii c in
  ((9 <=? n) && (n <=? 13) || (n =? 32) || (n =? 133) || (n =? 160))%nat.

Definition digit_value (c : ascii) : option Z :=
  let n := nat_of_ascii c in
  if ((48 <=? n) && (n <=? 57))%nat then Some (Z.of_nat n - 48) else None.

Fixpoint lstrip (cs : list ascii) : list ascii :=
  match cs with
  | c :: rest => if is_space c then lstrip rest else cs
  | [] => []
  end.

Definition strip (cs : list ascii) : list ascii :=
  rev (lstrip (rev (lstrip cs))).

(** Decimal digits, single underscores allowed between two digits. *)
Fixpoint digits (cs : list ascii) (acc : Z) (after_digit : bool) : option Z :=
  match cs with
  | [] => if after_digit then Some acc else None
  | c :: rest =>
      match digit_value c with
      | Some d => digits rest (10 * acc + d) true
      | None =>
          if Ascii.eqb c "_"%char && after_digit then digits rest acc false
          else None
      end
  end.

Definition parse_int (s : string) : option Z :=
  match strip (list_ascii_of_string s) with
  | "-"%char :: rest => Z.opp <$> digits rest 0 false
  | "+"%char :: rest => digits rest 0 false
  | cs => digits cs 0 false
  end.

(** *** [repr(s)] of a string, as the message of [int()] shows it *)

Definition quote1 : ascii := ascii_of_nat 39.
Definition quote2 : ascii := ascii_of_nat 34.
Definition backslash : ascii := ascii_of_nat 92.

Definition hex_digit (n : nat) : ascii :=
  if (n <? 10)%nat then ascii_of_nat (48 + n) else ascii_of_nat (87 + n).

(** [\xhh] *)
Definition hex_escape (c : ascii) : list ascii :=
  let n := nat_of_ascii c in
  [backslash; "x"%char; hex_digit (n / 16); hex_digit (n mod 16)].

(** Printable code points below 256: the visible ASCII ones and the space,
    and 161 to 255 but the soft hyphen. *)
Definition is_printable (c : ascii) : bool :=
  let n := nat_of_ascii c in
  ((32 <=? n) && (n <? 127)
   || (161 <=? n) && (n <=? 255) && negb (n =? 173))%nat.

(** Double quotes when the string has a single quote and no double one,
    single quotes otherwise. *)
Definition repr_quote (cs : list ascii) : ascii :=
  if existsb (Ascii.eqb quote1) cs && negb (existsb (Ascii.eqb quote2) cs)
  then quote2 else quote1.

Definition repr_char (quote c : ascii) : list ascii :=
  if Ascii.eqb c quote || Ascii.eqb c backslash then [backslash; c]
  else if (nat_of_ascii c =? 9)%nat then [backslash; "t"%char]
  else if (nat_of_ascii c =? 10)%nat then [backslash; "n"%char]
  else if (nat_of_ascii c =? 13)%nat then [backslash; "r"%char]
  else if is_printable c then [c]
  else hex_escape c.

Definition py_repr (s : string) : string :=
  let cs := list_ascii_of_string s in
  let quote := repr_quote cs in
  string_of_list_ascii
    (quote :: List.concat (List.map (repr_char quote) cs) ++ [quote]).

(** The message of the [ValueError]: the [repr], cut after 200
    characters. *)
Definition int_error_text (s : string) : string :=
  "invalid literal for int() with base 10: "
  +:+ string_of_list_ascii (take 200 (list_ascii_of_string (py_repr s))).

Definition py_int (s : string) : M Z :=
  match parse_int s with
  | Some n => mret n
  | None => raise ValueError (int_error_text s)
  end.

(** *** [datetime.now().strftime(...)] *)

Definition datetime_now : M datetime :=
  fun w s =>
    (Returns (wall_clock w (clock_reads s)),
     State (S (clock_reads s)) (draws s) (trace s)).

Definition dec_digit (n : nat) : string :=
  String (ascii_of_nat (48 + n mod 10)) EmptyString.

Definition pad2 (n : nat) : string :=
  dec_digit (n / 10) +:+ dec_digit n.

Definition pad4 (n : nat) : string :=
  dec_digit (n / 1000) +:+ dec_digit (n / 100) +:+ pad2 n.

(** ["%Y-%m-%d"] *)
Definition strftime_date (d : datetime) : string :=
  pad4 (dt_year d) +:+ "-" +:+ pad2 (dt_month d) +:+ "-" +:+ pad2 (dt_day d).

(** ["%Y-%m-%d %H:%M:%S"] *)
Definition strftime_stamp (d : datetime) : string :=
  strftime_date d +:+ " " +:+ pad2 (dt_hour d) +:+ ":"
  +:+ pad2 (dt_minute d) +:+ ":" +:+ pad2 (dt_second d).

(** *** [random] *)

Definition next_draw : M N :=
  fun w s =>
    (Returns (generator w (draws s)),
     State (clock_reads s) (S (draws s)) (trace s)).

Definition unit_interval (raw : N) : Q :=
  Z.of_N (raw mod 2 ^ 53) # 2 ^ 53.

(** [random.random()] *)
Definition random_random : M Q :=
  raw ← next_draw; mret (unit_interval raw).

Definition uniform_of (a b : Z) (u : Q) : Q :=
  (inject_Z a + (inject_Z b - inject_Z a) * u)%Q.

(** [random.uniform(a, b)] *)
Definition random_uniform (a b : Z) : M Q :=
  u ← random_random; mret (uniform_of a b u).

Definition randint_of (a b : Z) (raw : N) : Z :=
  a + Z.of_N raw mod (b - a + 1).

(** [random.randint(a, b)] *)
Definition random_randint (a b : Z) : M Z :=
  raw ← next_draw; mret (randint_of a b raw).

(** *** [geopy] and [requests] *)

Definition nominatim_reply (ua place : string) : M (option location) :=
  fun w s =>
    match nominatim w ua place with
    | GeoMatch loc => (Returns (Some loc), s)
    | GeoNoMatch => (Returns None, s)
    | GeoRaise e => (Raises e, s)
    end.

(** [Nominatim(user_agent=ua).geocode(place)] *)
Definition geocode (ua place : string) : M (option location) :=
  _ ← emit (Geocode ua place); nominatim_reply ua place.

Definition open_meteo_reply (url : string) (params : list (string * pyval))
    : M response :=
  fun w s =>
    match open_meteo w url params with
    | HttpResponse r => (Returns r, s)
    | HttpRaise text => (Raises (Exn RequestException text), s)
    end.

(** [requests.get(url, params=params)] *)
Definition requests_get (url : string) (params : list (string * pyval))
    : M response :=
  _ ← emit (HttpGet url params); open_meteo_reply url params.

(** [response.raise_for_status()] *)
Definition raise_for_status (r : response) : M unit :=
  if (400 <=? status_code r) && (status_code r <? 500) then
    raise RequestException
      (pretty (status_code r) +:+ " Client Error: " +:+ reason r
       +:+ " for url: " +:+ final_url r)
  else if (500 <=? status_code r) && (status_code r <? 600) then
    raise RequestException
      (pretty (status_code r) +:+ " Server Error: " +:+ reason r
       +:+ " for url: " +:+ final_url r)
  else mret tt.

(** [response.json()] *)
Definition response_json (r : response) : M pyval :=
  match json_body r with
  | inr v => mret v
  | inl msg => raise RequestException msg
  end.

(** ** The module *)

(** [get_coordinates(city_name)], lines 6-20 *)
Definition get_coordinates (city_name : string) : M (pyval * pyval) :=
  try_except
    (location ← geocode "weather_app" city_name;
     match location with
     | Some loc =>
         mret (PFloat (latitude_of loc), PFloat (longitude_of loc))
     | None =>
         _ ← print "City not found. Please enter a valid city name.";
         mret (PNone, PNone)
     end)
    any_exception
    (fun e =>
       _ ← print ("Error fetching coordinates: " +:+ exn_text e);
       mret (PNone, PNone)).

Definition base_url : string := "https://api.open-meteo.com/v1/forecast".

Definition current_params (latitude longitude : pyval)
    : list (string * pyval) :=
  [("latitude", latitude); ("longitude", longitude);
   ("current_weather", PStr "true"); ("timezone", PStr "auto")].

(** [get_current_weather(latitude, longitude)], lines 22-66 *)
Definition get_current_weather (latitude longitude : pyval) : M pyval :=
  let params := current_params latitude longitude in
  try_except
    (response ← requests_get base_url params;
     _ ← raise_for_status response;
     data ← response_json response;
     current_weather ← py_get data "current_weather" (PDict []);
     now ← datetime_now;
     let date := strftime_stamp now in
     temperature ← py_get current_weather "temperature" (PStr "N/A");
     wind_speed ← py_get current_weather "windspeed" (PStr "N/A");
     wind_direction ← py_get current_weather "winddirection" (PStr "N/A");
     r_humidity ← random_randint 30 90;
     humidity ← py_get current_weather "relative_humidity" (PInt r_humidity);
     r_pressure ← random_randint 980 1050;
     pressure ← py_get current_weather "pressure_msl" (PInt r_pressure);
     mret (PDict [("date", PStr date);
                  ("temperature", temperature);
                  ("wind_speed", wind_speed);
                  ("wind_direction", wind_direction);
                  ("humidity", humidity);
                  ("pressure", pressure)]))
    only_request_exception
    (fun e =>
       _ ← print ("Error fetching weather data: " +:+ exn_text e);
       mret PNone).

Definition hourly_params (latitude longitude : pyval)
    (start_date end_date : string) : list (string * pyval) :=
  [("latitude", latitude); ("longitude", longitude);
   ("hourly", PStr "windspeed_10m,winddirection_10m");
   ("timezone", PStr "auto");
   ("start_date", PStr start_date); ("end_date", PStr end_date)].

Definition base_wind_speed : Z := 5.

(** [xs[i] if i < len(xs) else random.uniform(a, b)] *)
Definition entry_or_uniform (xs : pyval) (i a b : Z) : M pyval :=
  n ← py_len xs;
  if i <? n then py_index xs i
  else x ← random_uniform a b; mret (PFloat x).

(** One pass of the loop body, lines 100-110: the point of slot [i]. *)
Definition hourly_point (times wind_speeds wind_directions : pyval) (i : Z)
    : M pyval :=
  time_str ← py_index times i;
  wind_speed ←
    entry_or_uniform wind_speeds i (base_wind_speed - 2) (base_wind_speed + 3);
  wind_direction ← entry_or_uniform wind_directions i 0 360;
  mret (PDict [("time", time_str);
               ("wind_speed", wind_speed);
               ("wind_direction", wind_direction)]).

(** [for i in idxs: hourly_weather.append(body i)] *)
Fixpoint for_append (body : Z -> M pyval) (idxs : list Z)
    (hourly_weather : list pyval) : M (list pyval) :=
  match idxs with
  | [] => mret hourly_weather
  | i :: rest =>
      point ← body i;
      for_append body rest (hourly_weather ++ [point])
  end.

(** [get_hourly_weather(latitude, longitude, end_hour)], lines 68-116 *)
Definition get_hourly_weather (latitude longitude : pyval) (end_hour : Z)
    : M pyval :=
  start_now ← datetime_now;
  end_now ← datetime_now;
  let params :=
    hourly_params latitude longitude
      (strftime_date start_now) (strftime_date end_now) in
  try_except
    (response ← requests_get base_url params;
     _ ← raise_for_status response;
     data ← response_json response;
     hourly_data ← py_get data "hourly" (PDict []);
     wind_speeds ← py_get hourly_data "windspeed_10m" (PList []);
     wind_directions ← py_get hourly_data "winddirection_10m" (PList []);
     times ← py_get hourly_data "time" (PList []);
     n_times ← py_len times;
     hourly_weather ←
       for_append (hourly_point times wind_speeds wind_directions)
         (py_range (Z.min (end_hour + 1) n_times)) [];
     mret (PList hourly_weather))
    only_request_exception
    (fun e =>
       _ ← print ("Error fetching hourly weather data: " +:+ exn_text e);
       mret PNone).

Record request : Type := Request { query : gmap string string }.

Definition reply (status : Z) (body : pyval) : pyval :=
  PDict [("statusCode", PInt status); ("body", body)].

(** [handler(request)], lines 118-156 *)
Definition handler (request : request) : M pyval :=
  match query request !! "city", query request !! "hour" with
  | Some city_name, Some end_hour =>
      '(latitude, longitude) ← get_coordinates city_name;
      if py_is_none latitude || py_is_none longitude then
        mret (reply 404 (PStr "City not found."))
      else
        current_weather ← get_current_weather latitude longitude;
        if py_is_none current_weather then
          mret (reply 500 (PStr "Error fetching current weather data."))
        else
          hour ← py_int end_hour;
          hourly_weather ← get_hourly_weather latitude longitude hour;
          if py_is_none hourly_weather then
            mret (reply 500 (PStr "Error fetching hourly weather data."))
          else
            mret (reply 200
                    (PDict [("current_weather", current_weather);
                            ("hourly_weather", hourly_weather)]))
  | _, _ =>
      mret (reply 400
              (PStr "Please provide both 'city' and 'hour' parameters."))
  end.

(** ** Vocabulary of the statements *)

Definition is_http_get (ev : event) : bool :=
  match ev with HttpGet _ _ => true | _ => false end.

(** The request of the hourly fetcher is the one with an ["hourly"]
    parameter. *)
Definition is_hourly_fetch (ev : event) : bool :=
  match ev with
  | HttpGet _ params => bool_decide (is_Some (assoc "hourly" params))
  | _ => false
  end.

(** [raise_for_status] lets the response through. *)
Definition status_ok (r : response) : bool :=
  negb ((400 <=? status_code r) && (status_code r <? 600)).

(** The current-weather request for these coordinates is answered with a
    passing status and a JSON object whose current-conditions member (or
    [{}] when it has none) is the object [cw]. *)
Definition upstream_current (w : world) (latitude longitude : pyval)
    (cw : list (string * pyval)) : Prop :=
  exists r d,
    open_meteo w base_url (current_params latitude longitude) = HttpResponse r
    /\ status_ok r = true
    /\ json_body r = inr (PDict d)
    /\ default (PDict []) (assoc "current_weather" d) = PDict cw.

(** Parameters of the hourly request of a call that starts in state [s]:
    both dates are read from the clock, one after the other. *)
Definition hourly_request (w : world) (latitude longitude : pyval)
    (s : state) : list (string * pyval) :=
  hourly_params latitude longitude
    (strftime_date (wall_clock w (clock_reads s)))
    (strftime_date (wall_clock w (S (clock_reads s)))).

(** The hourly request of a call that starts in [s] is answered with a
    passing status and a JSON object whose hourly member (or [{}]) holds
    these three arrays (each [[]] when its key is missing). *)
Definition upstream_hourly (w : world) (latitude longitude : pyval)
    (s : state) (times wind_speeds wind_directions : pyval) : Prop :=
  exists r d h,
    open_meteo w base_url (hourly_request w latitude longitude s)
      = HttpResponse r
    /\ status_ok r = true
    /\ json_body r = inr (PDict d)
    /\ default (PDict []) (assoc "hourly" d) = PDict h
    /\ times = default (PList []) (assoc "time" h)
    /\ wind_speeds = default (PList []) (assoc "windspeed_10m" h)
    /\ wind_directions = default (PList []) (assoc "winddirection_10m" h).

(** The value the loop gives one field of slot [i]: the array's entry when
    the array reaches that far, else a draw of [random.uniform(a, b)], which
    lies in [[a, b)]. *)
Definition slot_value (w : world) (xs : pyval) (i a b : Z) (v : pyval)
    : Prop :=
  exists n, len_of xs = Returns n /\
    if i <? n then item_of xs i = Returns v
    else exists k,
      let x := uniform_of a b (unit_interval (generator w k)) in
      v = PFloat x /\ (inject_Z a <= x)%Q /\ (x < inject_Z b)%Q.

Definition has_entry (xs : pyval) (i : Z) : bool :=
  match len_of xs with Returns n => i <? n | Raises _ => false end.

(** A float of the closed interval [[lo, hi]]. *)
Definition float_between (lo hi : Z) (v : pyval) : Prop :=
  exists x, v = PFloat x /\ (inject_Z lo <= x)%Q /\ (x <= inject_Z hi)%Q.

(** A float of the half-open interval [[lo, hi)]. *)
Definition float_below (lo hi : Z) (v : pyval) : Prop :=
  exists x, v = PFloat x /\ (inject_Z lo <= x)%Q /\ (x < inject_Z hi)%Q.

(** Reading of the two-way rule "both arrays have the entry, else both
    fields are substituted". *)
Definition both_or_substituted (wind_speeds wind_directions : pyval) (i : Z)
    (speed direction : pyval) : Prop :=
  if has_entry wind_speeds i && has_entry wind_directions i then
    item_of wind_speeds i = Returns speed
    /\ item_of wind_directions i = Returns direction
  else
    float_between 3 8 speed /\ float_below 0 360 direction.

(** State in which the body of the hourly loop starts: both dates read,
    the request sent. *)
Definition hourly_started (w : world) (latitude longitude : pyval)
    (s : state) : state :=
  State (S (S (clock_reads s))) (draws s)
    (trace s ++ [HttpGet base_url (hourly_request w latitude longitude s)]).

(** The time stamp a point carries. *)
Definition point_time (point : pyval) : pyval :=
  match point with
  | PDict fields => default PNone (assoc "time" fields)
  | _ => PNone
  end.

(** Every run of [m] only appends events that satisfy [P] to the trace. *)
Definition appends_only {A : Type} (P : event -> bool) (m : M A) : Prop :=
  forall w s, exists evs,
    trace (m w s).2 = trace s ++ evs /\ forallb P evs = true.

(** What [get_coordinates] hands back for each reply of the service, and
    what it prints. *)
Definition coordinates_of (r : geocode_reply) : pyval * pyval :=
  match r with
  | GeoMatch loc => (PFloat (latitude_of loc), PFloat (longitude_of loc))
  | _ => (PNone, PNone)
  end.

Definition geocode_prints (r : geocode_reply) : list event :=
  match r with
  | GeoMatch _ => []
  | GeoNoMatch => [Print "City not found. Please enter a valid city name."]
  | GeoRaise e => [Print ("Error fetching coordinates: " +:+ exn_text e)]
  end.

Definition bad_request : pyval :=
  reply 400 (PStr "Please provide both 'city' and 'hour' parameters.").

(** Geocoder, current-weather fetch and hourly fetch all hand back a value
    for this request: the geocoder a pair without [None], the current fetch
    [cw], and the hourly fetch, called with the parsed hour [h], the value
    [hw], leaving the state [s']. *)
Definition every_stage_succeeds (w : world) (req : request) (s : state)
    (h : Z) (cw hw : pyval) (s' : state) : Prop :=
  exists city hour lat lon s1 s2,
    query req !! "city" = Some city
    /\ query req !! "hour" = Some hour
    /\ parse_int hour = Some h
    /\ get_coordinates city w s = (Returns (lat, lon), s1)
    /\ py_is_none lat = false /\ py_is_none lon = false
    /\ get_current_weather lat lon w s1 = (Returns cw, s2)
    /\ py_is_none cw = false
    /\ get_hourly_weather lat lon h w s2 = (Returns hw, s')
    /\ py_is_none hw = false.

Definition ok_body (cw hw : pyval) : pyval :=
  PDict [("current_weather", cw); ("hourly_weather", hw)].

(** Reading of "status 200 with at most [hour + 1] hourly points" for one
    request. *)
Definition hourly_within_hour_plus_one (w : world) (req : request)
    (s : state) : Prop :=
  forall h cw hw s', every_stage_succeeds w req s h cw hw s' ->
    exists points,
      hw = PList points
      /\ handler req w s = (Returns (reply 200 (ok_body cw hw)), s')
      /\ Z.of_nat (length points) <= h + 1.

(** Reading of "exactly [min(end_hour + 1, n)] points" for one call. *)
Definition count_is_min (w : world) (latitude longitude : pyval)
    (end_hour : Z) (s : state) : Prop :=
  forall times speeds directions n points s',
    upstream_hourly w latitude longitude s times speeds directions ->
    len_of times = Returns n ->
    get_hourly_weather latitude longitude end_hour w s
      = (Returns (PList points), s') ->
    Z.of_nat (length points) = Z.min (end_hour + 1) n.

(** Reading of "an unparseable hour always aborts the handler". *)
Definition bad_hour_aborts (w : world) (req : request) (s : state) : Prop :=
  forall city hour,
    query req !! "city" = Some city ->
    query req !! "hour" = Some hour ->
    parse_int hour = None ->
    exists e, (handler req w s).1 = Raises e.

(** ** Sample worlds *)

Definition sample_generator (k : nat) : N :=
  (N.of_nat (S k) * 6364136223846793005 + 1442695040888963407)%N.

Definition noon : datetime := Datetime 2024 5 17 12 0 0.

Definition paris : location := Location (4885 # 100) (235 # 100).

Definition hour_label (h : nat) : pyval :=
  PStr ("2024-05-17T" +:+ pad2 h +:+ ":00").

Definition day_times : list pyval := hour_label <$> seq 0 24.

Definition day_speeds : list pyval :=
  (fun h : nat => PFloat (inject_Z (Z.of_nat h + 10))) <$> seq 0 24.

Definition day_directions : list pyval :=
  (fun h : nat => PInt (Z.of_nat (h * 15))) <$> seq 0 24.

Definition ok_response (body : pyval) : http_reply :=
  HttpResponse (Response 200 "OK" base_url (inr body)).

(** An Open-Meteo that answers the current request without humidity and
    pressure and the hourly request with the three given arrays. *)
Definition meteo_with (times speeds directions : pyval)
    (url : string) (params : list (string * pyval)) : http_reply :=
  if bool_decide (is_Some (assoc "hourly" params)) then
    ok_response (PDict [("hourly",
      PDict [("time", times); ("windspeed_10m", speeds);
             ("winddirection_10m", directions)])])
  else
    ok_response (PDict [("current_weather",
      PDict [("temperature", PFloat (215 # 10)); ("windspeed", PFloat (72 # 10));
             ("winddirection", PInt 240)])]).

Definition everything_works : world :=
  World (fun _ _ => GeoMatch paris)
        (meteo_with (PList day_times) (PList day_speeds) (PList day_directions))
        (fun _ => noon) sample_generator.

(** One time stamp, one wind speed, no wind direction. *)
Definition lopsided_arrays : world :=
  World (fun _ _ => GeoMatch paris)
        (meteo_with (PList [hour_label 0]) (PList [PFloat (inject_Z 100)])
           (PList []))
        (fun _ => noon) sample_generator.

Definition unknown_city : world :=
  World (fun _ _ => GeoNoMatch)
        (meteo_with (PList day_times) (PList day_speeds) (PList day_directions))
        (fun _ => noon) sample_generator.

Definition meteo_down : world :=
  World (fun _ _ => GeoMatch paris)
        (fun _ _ => HttpRaise "connection refused")
        (fun _ => noon) sample_generator.

(** The current request is answered, the hourly one gets a 503. *)
Definition hourly_down : world :=
  World (fun _ _ => GeoMatch paris)
        (fun url params =>
           if bool_decide (is_Some (assoc "hourly" params)) then
             HttpResponse
               (Response 503 "Service Unavailable" base_url (inl "no body"))
           else meteo_with (PList []) (PList []) (PList []) url params)
        (fun _ => noon) sample_generator.

Definition fresh : state := State 0 0 [].

Definition ask (city hour : string) : request :=
  Request (<["city" := city]> (<["hour" := hour]> ∅)).

Definition here_lat : pyval := PFloat (latitude_of paris).
Definition here_lon : pyval := PFloat (longitude_of paris).

(** ** Vocabulary of the further properties *)

Definition is_print (ev : event) : bool :=
  match ev with Print _ => true | _ => false end.

(** The outgoing calls among some events: everything but the prints. *)
Definition calls (evs : list event) : list event :=
  List.filter (fun ev => negb (is_print ev)) evs.

(** Text of the [RequestException] with which the first three steps of a
    fetcher (the request, [raise_for_status], [json()]) end, when one of
    them fails. *)
Definition failure_text (answer : http_reply) : option string :=
  match answer with
  | HttpRaise text => Some text
  | HttpResponse r =>
      if (400 <=? status_code r) && (status_code r <? 500) then
        Some (pretty (status_code r) +:+ " Client Error: " +:+ reason r
              +:+ " for url: " +:+ final_url r)
      else if (500 <=? status_code r) && (status_code r <? 600) then
        Some (pretty (status_code r) +:+ " Server Error: " +:+ reason r
              +:+ " for url: " +:+ final_url r)
      else
        match json_body r with
        | inl msg => Some msg
        | inr _ => None
        end
  end.

Definition is_dict (v : pyval) : bool :=
  match v with PDict _ => true | _ => false end.

(** A JSON body that is not an object, or an object whose member [key] is
    there and is not an object. *)
Definition no_object_under (key : string) (data : pyval) : bool :=
  match data with
  | PDict d => negb (is_dict (default (PDict []) (assoc key d)))
  | _ => true
  end.

(** Text of the [AttributeError] raised on such a body. *)
Definition no_get_text (key : string) (data : pyval) : string :=
  let culprit :=
    match data with
    | PDict d => default (PDict []) (assoc key d)
    | _ => data
    end in
  "'" +:+ type_name culprit +:+ "' object has no attribute 'get'".

(** The dict [get_current_weather] builds from the upstream object [c], the
    clock reading [now] and the two raw draws. *)
Definition current_weather_of (c : list (string * pyval)) (now : datetime)
    (raw_humidity raw_pressure : N) : pyval :=
  PDict [("date", PStr (strftime_stamp now));
         ("temperature", default (PStr "N/A") (assoc "temperature" c));
         ("wind_speed", default (PStr "N/A") (assoc "windspeed" c));
         ("wind_direction", default (PStr "N/A") (assoc "winddirection" c));
         ("humidity",
          default (PInt (randint_of 30 90 raw_humidity))
            (assoc "relative_humidity" c));
         ("pressure",
          default (PInt (randint_of 980 1050 raw_pressure))
            (assoc "pressure_msl" c))].

Definition keys_of (v : pyval) : list string :=
  match v with PDict entries => fst <$> entries | _ => [] end.

Definition hourly_point_of (t speed direction : pyval) : pyval :=
  PDict [("time", t); ("wind_speed", speed); ("wind_direction", direction)].

(** The replies the handler can give. *)
Definition not_found : pyval := reply 404 (PStr "City not found.").
Definition current_failed : pyval :=
  reply 500 (PStr "Error fetching current weather data.").
Definition hourly_failed : pyval :=
  reply 500 (PStr "Error fetching hourly weather data.").

(** A clock reading with a four-digit year, a month and a day of the
    month, as [datetime.now()] gives them today. *)
Definition calendar_date (d : datetime) : Prop :=
  (1000 <= dt_year d < 10 * 1000 /\ 1 <= dt_month d <= 12
   /\ 1 <= dt_day d <= 31)%nat.

Definition same_day (d1 d2 : datetime) : Prop :=
  dt_year d1 = dt_year d2 /\ dt_month d1 = dt_month d2
  /\ dt_day d1 = dt_day d2.

(** Further sample worlds. *)

(** The first reading of the clock is the last second of a day, the later
    ones fall on the next day. *)
Definition around_midnight (k : nat) : datetime :=
  match k with
  | O => Datetime 2024 5 17 23 59 59
  | S _ => Datetime 2024 5 18 0 0 0
  end.

Definition midnight_world : world :=
  World (fun _ _ => GeoMatch paris)
        (meteo_with (PList day_times) (PList day_speeds) (PList day_directions))
        around_midnight sample_generator.

(** Every request is answered with the JSON array [[]]. *)
Definition array_body : world :=
  World (fun _ _ => GeoMatch paris) (fun _ _ => ok_response (PList []))
        (fun _ => noon) sample_generator.

(** The hourly member has no ["time"] key; the wind arrays are [null]. *)
Definition no_time_key (url : string) (params : list (string * pyval))
    : http_reply :=
  ok_response (PDict [("hourly",
    PDict [("windspeed_10m", PNone); ("winddirection_10m", PNone)])]).

Definition timeless : world :=
  World (fun _ _ => GeoMatch paris) no_time_key (fun _ => noon)
        sample_generator.

(** ["time": null]. *)
Definition null_times : world :=
  World (fun _ _ => GeoMatch paris)
        (meteo_with PNone (PList day_speeds) (PList day_directions))
        (fun _ => noon) sample_generator.

(** ["windspeed_10m": null] beside 24 time stamps. *)
Definition null_speeds : world :=
  World (fun _ _ => GeoMatch paris)
        (meteo_with (PList day_times) PNone (PList day_directions))
        (fun _ => noon) sample_generator.

(** 24 time stamps, 5 wind speeds, 2 wind directions. *)
Definition short_wind : world :=
  World (fun _ _ => GeoMatch paris)
        (meteo_with (PList day_times) (PList (take 5 day_speeds))
           (PList (take 2 day_directions)))
        (fun _ => noon) sample_generator.

(** The geocoding service raises. *)
Definition geocoder_down : world :=
  World (fun _ _ => GeoRaise (Exn OtherException "timed out"))
        (meteo_with (PList day_times) (PList day_speeds) (PList day_directions))
        (fun _ => noon) sample_generator.

(** * Properties *)

(** ** Running the monad *)

Lemma run_bind {A B : Type} (m : M A) (f : A -> M B) w s :
  (m ≫= f) w s =
  match m w s with
  | (Returns a, s') => f a w s'
  | (Raises e, s') => (Raises e, s')
  end.
Proof. reflexivity. Qed.

Lemma run_ret {A : Type} (a : A) w s : (mret a : M A) w s = (Returns a, s).
Proof. reflexivity. Qed.

Lemma get_coordinates_run w city s :
  get_coordinates city w s =
  (Returns (coordinates_of (nominatim w "weather_app" city)),
   State (clock_reads s) (draws s)
     (trace s ++ Geocode "weather_app" city
        :: geocode_prints (nominatim w "weather_app" city))).
Proof.
  cbv [get_coordinates try_except geocode nominatim_reply mbind M_bind
       mret M_ret print emit any_exception].
  destruct (nominatim w "weather_app" city) as [loc| |e];
    cbn [clock_reads draws trace coordinates_of geocode_prints];
    rewrite <- ?app_assoc; reflexivity.
Qed.

(** ** What a computation may add to the trace *)

Lemma appends_ret {A : Type} P (a : A) : appends_only P (mret a : M A).
Proof. intros w s. exists []. rewrite app_nil_r. split; reflexivity. Qed.

Lemma appends_lift {A : Type} P (o : outcome A) : appends_only P (lift o).
Proof. intros w s. exists []. rewrite app_nil_r. split; reflexivity. Qed.

Lemma appends_raise {A : Type} P k text : appends_only P (@raise A k text).
Proof. apply appends_lift. Qed.

Lemma appends_emit P ev : P ev = true -> appends_only P (emit ev).
Proof.
  intros Hev w s. exists [ev]. split; [reflexivity|].
  cbn. rewrite Hev. reflexivity.
Qed.

Lemma appends_datetime_now P : appends_only P datetime_now.
Proof. intros w s. exists []. rewrite app_nil_r. split; reflexivity. Qed.

Lemma appends_next_draw P : appends_only P next_draw.
Proof. intros w s. exists []. rewrite app_nil_r. split; reflexivity. Qed.

Lemma appends_nominatim_reply P ua place :
  appends_only P (nominatim_reply ua place).
Proof.
  intros w s. exists []. rewrite app_nil_r. split; [|reflexivity].
  unfold nominatim_reply. destruct (nominatim w ua place); reflexivity.
Qed.

Lemma appends_open_meteo_reply P url params :
  appends_only P (open_meteo_reply url params).
Proof.
  intros w s. exists []. rewrite app_nil_r. split; [|reflexivity].
  unfold open_meteo_reply. destruct (open_meteo w url params); reflexivity.
Qed.

Lemma appends_bind {A B : Type} P (m : M A) (f : A -> M B) :
  appends_only P m -> (forall a, appends_only P (f a)) ->
  appends_only P (m ≫= f).
Proof.
  intros Hm Hf w s. rewrite run_bind.
  destruct (Hm w s) as (evs1 & Ht1 & Hp1).
  destruct (m w s) as [[a|e] s1]; cbn [snd] in *.
  - destruct (Hf a w s1) as (evs2 & Ht2 & Hp2).
    exists (evs1 ++ evs2). rewrite Ht2, Ht1, <- app_assoc, forallb_app.
    rewrite Hp1, Hp2. split; reflexivity.
  - exists evs1. split; assumption.
Qed.

Lemma appends_try_except {A : Type} P (body : M A) catches handle :
  appends_only P body -> (forall e, appends_only P (handle e)) ->
  appends_only P (try_except body catches handle).
Proof.
  intros Hm Hf w s. unfold try_except.
  destruct (Hm w s) as (evs1 & Ht1 & Hp1).
  destruct (body w s) as [[a|e] s1]; cbn [snd] in *.
  - exists evs1. split; assumption.
  - destruct (catches (exn_kind_of e)).
    + destruct (Hf e w s1) as (evs2 & Ht2 & Hp2).
      exists (evs1 ++ evs2). rewrite Ht2, Ht1, <- app_assoc, forallb_app.
      rewrite Hp1, Hp2. split; reflexivity.
    + exists evs1. split; assumption.
Qed.

Ltac appends_step :=
  first
    [ apply appends_ret
    | apply appends_lift
    | apply appends_raise
    | apply appends_datetime_now
    | apply appends_next_draw
    | apply appends_nominatim_reply
    | apply appends_open_meteo_reply
    | apply appends_emit; reflexivity
    | apply appends_bind; [|intros ?]
    | apply appends_try_except; [|intros ?]
    | match goal with
      | |- appends_only _ (match ?x with _ => _ end) => destruct x
      end ].

Ltac appends := repeat appends_step.

Lemma appends_py_get P d key fallback : appends_only P (py_get d key fallback).
Proof. unfold py_get. appends. Qed.

Lemma appends_py_int P text : appends_only P (py_int text).
Proof. unfold py_int. appends. Qed.

Lemma appends_raise_for_status P r : appends_only P (raise_for_status r).
Proof. unfold raise_for_status. appends. Qed.

Lemma appends_response_json P r : appends_only P (response_json r).
Proof. unfold response_json. appends. Qed.

Lemma appends_random_randint P a b : appends_only P (random_randint a b).
Proof. unfold random_randint. appends. Qed.

Lemma appends_random_uniform P a b : appends_only P (random_uniform a b).
Proof. unfold random_uniform, random_random. appends. Qed.

Lemma appends_entry_or_uniform P xs i a b :
  appends_only P (entry_or_uniform xs i a b).
Proof.
  unfold entry_or_uniform, py_len, py_index. appends.
Qed.

Lemma appends_hourly_point P times speeds directions i :
  appends_only P (hourly_point times speeds directions i).
Proof.
  unfold hourly_point, py_index.
  appends; try apply appends_entry_or_uniform.
Qed.

Lemma appends_for_append P body idxs acc :
  (forall i, appends_only P (body i)) ->
  appends_only P (for_append body idxs acc).
Proof.
  intros Hbody. revert acc.
  induction idxs as [|i rest IH]; intros acc; cbn [for_append].
  - apply appends_ret.
  - apply appends_bind; [apply Hbody | intros pt; apply IH].
Qed.

(** The current-weather fetcher never makes the hourly request. *)
Lemma appends_get_current_weather latitude longitude :
  appends_only (fun ev => negb (is_hourly_fetch ev))
    (get_current_weather latitude longitude).
Proof.
  unfold get_current_weather, requests_get, print.
  appends;
    try first [ apply appends_raise_for_status | apply appends_response_json
              | apply appends_py_get | apply appends_random_randint ].
Qed.

(** The hourly fetcher adds nothing that is not allowed everywhere. *)
Lemma appends_get_hourly_weather latitude longitude end_hour :
  appends_only (fun _ => true)
    (get_hourly_weather latitude longitude end_hour).
Proof.
  unfold get_hourly_weather, requests_get, print, py_len.
  appends;
    try first [ apply appends_raise_for_status | apply appends_response_json
              | apply appends_py_get
              | apply appends_for_append; intros; apply appends_hourly_point ].
Qed.

Lemma appends_weaken {A : Type} (P Q : event -> bool) (m : M A) :
  (forall ev, P ev = true -> Q ev = true) ->
  appends_only P m -> appends_only Q m.
Proof.
  intros HPQ Hm w s. destruct (Hm w s) as (evs & Ht & Hp).
  exists evs. split; [assumption|].
  rewrite forallb_forall in *. intros ev Hin. apply HPQ, Hp, Hin.
Qed.

Lemma filter_none (P : event -> bool) evs :
  forallb (fun ev => negb (P ev)) evs = true -> List.filter P evs = [].
Proof.
  induction evs as [|ev evs IH]; cbn; [reflexivity|].
  intros H. apply andb_prop in H as [Hev Hrest].
  destruct (P ev); [discriminate|]. apply IH, Hrest.
Qed.

(** ** The request handler *)

(** C2: when [city] is absent or [hour] is absent the handler answers 400
    with the fixed message whatever the other parameter is, and the state it
    leaves is the state it found: nothing was sent to the geocoder or to the
    weather service, no clock or generator was read. *)
Theorem handler_missing_parameter w req s :
  query req !! "city" = None \/ query req !! "hour" = None ->
  handler req w s = (Returns bad_request, s)
  /\ trace (handler req w s).2 = trace s.
Proof.
  intros H.
  assert (Hrun : handler req w s = (Returns bad_request, s)).
  { unfold handler.
    destruct H as [H|H]; rewrite H; [|destruct (query req !! "city")];
      reflexivity. }
  rewrite Hrun. split; reflexivity.
Qed.

Lemma handler_missing_parameter_witness :
  handler (Request {["city" := "Paris"]}) everything_works fresh
    = (Returns bad_request, fresh)
  /\ handler (Request {["hour" := "3"]}) everything_works fresh
    = (Returns bad_request, fresh).
Proof.
  split.
  - apply (handler_missing_parameter everything_works
             (Request {["city" := "Paris"]}) fresh).
    right. vm_compute. reflexivity.
  - apply (handler_missing_parameter everything_works
             (Request {["hour" := "3"]}) fresh).
    left. vm_compute. reflexivity.
Defined.

(** C3: with both parameters present, when the geocoding service has no
    match or raises, [get_coordinates] hands back [(None, None)], the handler
    answers 404, and the only events added to the trace are the geocoder
    call and one printed line: no HTTP request is made, so neither fetcher
    ran. *)
Theorem handler_city_not_found w req s city hour :
  query req !! "city" = Some city ->
  query req !! "hour" = Some hour ->
  (forall loc, nominatim w "weather_app" city <> GeoMatch loc) ->
  exists s' line,
    get_coordinates city w s = (Returns (PNone, PNone), s')
    /\ handler req w s = (Returns (reply 404 (PStr "City not found.")), s')
    /\ trace s' = trace s ++ [Geocode "weather_app" city; Print line]
    /\ List.filter is_http_get (trace s') = List.filter is_http_get (trace s).
Proof.
  intros Hcity Hhour Hnone.
  pose proof (get_coordinates_run w city s) as Hrun.
  unfold handler. rewrite Hcity, Hhour, run_bind.
  destruct (nominatim w "weather_app" city) as [loc| |e] eqn:Hreply.
  - exfalso. exact (Hnone loc eq_refl).
  - eexists _, _. rewrite Hrun. cbn [coordinates_of geocode_prints trace].
    repeat split. cbn [trace]. rewrite List.filter_app. cbn. apply app_nil_r.
  - eexists _, _. rewrite Hrun. cbn [coordinates_of geocode_prints trace].
    repeat split. cbn [trace]. rewrite List.filter_app. cbn. apply app_nil_r.
Qed.

Lemma handler_city_not_found_witness :
  exists s' line,
    get_coordinates "Paris" unknown_city fresh = (Returns (PNone, PNone), s')
    /\ handler (ask "Paris" "3") unknown_city fresh
       = (Returns (reply 404 (PStr "City not found.")), s')
    /\ trace s' = trace fresh ++ [Geocode "weather_app" "Paris"; Print line]
    /\ List.filter is_http_get (trace s')
       = List.filter is_http_get (trace fresh).
Proof.
  apply (handler_city_not_found unknown_city (ask "Paris" "3") fresh
           "Paris" "3").
  - vm_compute. reflexivity.
  - vm_compute. reflexivity.
  - intros loc. cbn. discriminate.
Defined.

(** C4: once the geocoder has produced coordinates, (1) if the
    current-weather fetch hands back [None] the handler answers 500 in the
    very state that fetch left, and the trace holds no more hourly requests
    than before the handler started: the hourly fetcher never ran; (2) if the
    current-weather fetch hands back a value and the hourly fetch, called
    with the parsed hour, hands back [None], the handler answers 500. *)
Theorem handler_fetch_failure w req s city hour lat lon s1 :
  query req !! "city" = Some city ->
  query req !! "hour" = Some hour ->
  get_coordinates city w s = (Returns (lat, lon), s1) ->
  py_is_none lat = false -> py_is_none lon = false ->
  (forall s2,
     get_current_weather lat lon w s1 = (Returns PNone, s2) ->
     handler req w s
       = (Returns (reply 500 (PStr "Error fetching current weather data.")),
          s2)
     /\ List.filter is_hourly_fetch (trace s2)
        = List.filter is_hourly_fetch (trace s))
  /\ (forall cw s2 h s3,
        get_current_weather lat lon w s1 = (Returns cw, s2) ->
        py_is_none cw = false ->
        parse_int hour = Some h ->
        get_hourly_weather lat lon h w s2 = (Returns PNone, s3) ->
        handler req w s
          = (Returns (reply 500 (PStr "Error fetching hourly weather data.")),
             s3)).
Proof.
  intros Hcity Hhour Hgeo Hlat Hlon. split.
  - intros s2 Hcur. split.
    + unfold handler. rewrite Hcity, Hhour, run_bind, Hgeo, Hlat, Hlon.
      cbn [orb]. rewrite run_bind, Hcur. reflexivity.
    + destruct (appends_get_current_weather lat lon w s1) as (evs & Ht & Hp).
      rewrite Hcur in Ht. cbn [snd] in Ht. rewrite Ht.
      rewrite get_coordinates_run in Hgeo. injection Hgeo as _ <-.
      cbn [trace]. rewrite !List.filter_app, (filter_none _ evs Hp).
      destruct (nominatim w "weather_app" city) as [?| |?]; cbn;
        rewrite !app_nil_r; reflexivity.
  - intros cw s2 h s3 Hcur Hcw Hparse Hhr.
    unfold handler. rewrite Hcity, Hhour, run_bind, Hgeo, Hlat, Hlon.
    cbn [orb]. rewrite run_bind, Hcur, Hcw.
    unfold py_int. rewrite Hparse, run_bind, run_ret, run_bind, Hhr.
    reflexivity.
Qed.

Lemma handler_fetch_failure_witness :
  (exists s2,
     handler (ask "Paris" "3") meteo_down fresh
       = (Returns (reply 500 (PStr "Error fetching current weather data.")),
          s2)
     /\ List.filter is_hourly_fetch (trace s2)
        = List.filter is_hourly_fetch (trace fresh))
  /\ (exists s3,
        handler (ask "Paris" "3") hourly_down fresh
          = (Returns (reply 500 (PStr "Error fetching hourly weather data.")),
             s3)).
Proof.
  split.
  - eexists.
    eapply (proj1 (handler_fetch_failure meteo_down (ask "Paris" "3") fresh
                     "Paris" "3" here_lat here_lon _
                     eq_refl eq_refl eq_refl eq_refl eq_refl)).
    vm_compute. reflexivity.
  - eexists.
    eapply (proj2 (handler_fetch_failure hourly_down (ask "Paris" "3") fresh
                     "Paris" "3" here_lat here_lon _
                     eq_refl eq_refl eq_refl eq_refl eq_refl)).
    + vm_compute. reflexivity.
    + reflexivity.
    + vm_compute. reflexivity.
    + vm_compute. reflexivity.
Defined.

(** C7, as the code has it: the hour is parsed only after the geocoder and
    the current-weather fetch have both handed back a value.  For a request
    with both parameters whose hour [int()] rejects: if the geocoder hands
    back a pair with a [None], the handler answers 404; if it hands back
    coordinates and the current-weather fetch hands back [None], the handler
    answers 500; and if the current-weather fetch hands back a value, the
    handler ends with an uncaught [ValueError], in the state that fetch left
    (the hourly fetcher is not called) and without any status reply. *)
Theorem handler_bad_hour w req s city hour :
  query req !! "city" = Some city ->
  query req !! "hour" = Some hour ->
  parse_int hour = None ->
  forall lat lon s1,
    get_coordinates city w s = (Returns (lat, lon), s1) ->
    (py_is_none lat || py_is_none lon = true ->
     handler req w s = (Returns (reply 404 (PStr "City not found.")), s1))
    /\ (py_is_none lat || py_is_none lon = false ->
        forall cw s2,
          get_current_weather lat lon w s1 = (Returns cw, s2) ->
          (py_is_none cw = true ->
           handler req w s
           = (Returns (reply 500
                         (PStr "Error fetching current weather data.")), s2))
          /\ (py_is_none cw = false ->
              exists text,
                handler req w s = (Raises (Exn ValueError text), s2))).
Proof.
  intros Hcity Hhour Hparse lat lon s1 Hgeo.
  unfold handler. rewrite Hcity, Hhour, run_bind, Hgeo.
  split; intros ->; [reflexivity|].
  intros cw s2 Hcur. rewrite run_bind, Hcur.
  split; intros ->; [reflexivity|].
  unfold py_int. rewrite Hparse, run_bind. eexists. reflexivity.
Qed.

Lemma handler_bad_hour_witness :
  exists text s2,
    handler (ask "Paris" "abc") everything_works fresh
      = (Raises (Exn ValueError text), s2).
Proof.
  assert (Hcur : exists cw s2,
             get_current_weather here_lat here_lon everything_works
               (State 0 0 [Geocode "weather_app" "Paris"])
             = (Returns cw, s2) /\ py_is_none cw = false).
  { eexists _, _. split; vm_compute; reflexivity. }
  destruct Hcur as (cw & s2 & Hcur & Hcw).
  destruct (handler_bad_hour everything_works (ask "Paris" "abc") fresh
              "Paris" "abc" eq_refl eq_refl eq_refl here_lat here_lon
              (State 0 0 [Geocode "weather_app" "Paris"]) eq_refl)
    as [_ Hrest].
  destruct (Hrest eq_refl cw s2 Hcur) as [_ Habort].
  destruct (Habort Hcw) as [text Hrun].
  exists text, s2. exact Hrun.
Defined.

(** C7 as worded fails: with an unknown city the handler answers 404 before
    it ever looks at the hour, so an unparseable hour does not abort it. *)
Lemma bad_hour_answered_404 :
  query (ask "Paris" "abc") !! "city" = Some "Paris"
  /\ query (ask "Paris" "abc") !! "hour" = Some "abc"
  /\ parse_int "abc" = None
  /\ (handler (ask "Paris" "abc") unknown_city fresh).1
     = Returns (reply 404 (PStr "City not found."))
  /\ ~ bad_hour_aborts unknown_city (ask "Paris" "abc") fresh.
Proof.
  repeat split; try (vm_compute; reflexivity).
  intros H. destruct (H "Paris" "abc") as [e He];
    try (vm_compute; reflexivity).
  vm_compute in He. discriminate He.
Qed.

(** C9: the presence check only looks for a missing key.  With [city] the
    empty string (and [hour] present) the next thing the handler does is
    call the geocoder with the empty string, and whatever happens afterwards
    its answer is not a 400. *)
Theorem handler_forwards_empty_city w req s hour :
  query req !! "city" = Some "" ->
  query req !! "hour" = Some hour ->
  (exists rest,
     trace (handler req w s).2 = trace s ++ Geocode "weather_app" "" :: rest)
  /\ forall body, (handler req w s).1 <> Returns (reply 400 body).
Proof.
  intros Hcity Hhour.
  unfold handler. rewrite Hcity, Hhour, run_bind, get_coordinates_run.
  set (prints := geocode_prints _).
  set (s1 := State _ _ _).
  destruct (coordinates_of _) as [lat lon].
  set (k := if py_is_none lat || py_is_none lon then _ else _).
  assert (Hk : appends_only (fun _ => true) k).
  { subst k. destruct (py_is_none lat || py_is_none lon); [apply appends_ret|].
    apply appends_bind.
    { eapply appends_weaken; [|apply appends_get_current_weather]. auto. }
    intros cw. destruct (py_is_none cw); [apply appends_ret|].
    apply appends_bind; [apply appends_py_int|]. intros h.
    apply appends_bind.
    { eapply appends_weaken; [|apply appends_get_hourly_weather]. auto. }
    intros hw. destruct (py_is_none hw); apply appends_ret. }
  split.
  - destruct (Hk w s1) as (evs & Ht & _). exists (prints ++ evs).
    rewrite Ht. subst s1. cbn [trace]. rewrite <- app_assoc. reflexivity.
  - intros body. subst k.
    destruct (py_is_none lat || py_is_none lon).
    { cbn. unfold reply. congruence. }
    rewrite run_bind.
    destruct (get_current_weather lat lon w s1) as [[cw|e] s2];
      [|cbn; congruence].
    destruct (py_is_none cw); [cbn; unfold reply; congruence|].
    rewrite run_bind.
    destruct (py_int hour w s2) as [[h|e] s3]; [|cbn; congruence].
    rewrite run_bind.
    destruct (get_hourly_weather lat lon h w s3) as [[hw|e] s4];
      [|cbn; congruence].
    destruct (py_is_none hw); cbn; unfold reply; congruence.
Qed.

Lemma handler_forwards_empty_city_witness :
  (exists rest,
     trace (handler (ask "" "3") unknown_city fresh).2
       = trace fresh ++ Geocode "weather_app" "" :: rest)
  /\ forall body,
       (handler (ask "" "3") unknown_city fresh).1
         <> Returns (reply 400 body).
Proof.
  apply (handler_forwards_empty_city unknown_city (ask "" "3") fresh "3").
  - vm_compute. reflexivity.
  - vm_compute. reflexivity.
Defined.

(** ** The current-weather fetcher *)

Lemma raise_for_status_ok r w s :
  status_ok r = true -> raise_for_status r w s = (Returns tt, s).
Proof.
  unfold status_ok, raise_for_status. intros Hok.
  destruct (400 <=? status_code r) eqn:H400; cbn [andb negb] in *.
  - destruct (status_code r <? 600) eqn:H600; [discriminate|].
    assert ((status_code r <? 500) = false) as -> by lia.
    destruct (500 <=? status_code r); reflexivity.
  - assert ((500 <=? status_code r) = false) as -> by lia. reflexivity.
Qed.

Lemma raise_for_status_cases r w s :
  (status_ok r = true /\ raise_for_status r w s = (Returns tt, s))
  \/ exists text,
       raise_for_status r w s = (Raises (Exn RequestException text), s).
Proof.
  destruct (status_ok r) eqn:Hok.
  - left. split; [reflexivity|]. apply raise_for_status_ok, Hok.
  - right. unfold status_ok in Hok. unfold raise_for_status.
    destruct ((400 <=? status_code r) && (status_code r <? 500)) eqn:H4.
    + eexists. reflexivity.
    + destruct ((500 <=? status_code r) && (status_code r <? 600)) eqn:H5.
      * eexists. reflexivity.
      * exfalso. lia.
Qed.

Lemma randint_of_range a b raw :
  a <= b -> a <= randint_of a b raw <= b.
Proof.
  intros Hab. unfold randint_of.
  pose proof (Z.mod_pos_bound (Z.of_N raw) (b - a + 1)). lia.
Qed.

Lemma get_current_weather_returns lat lon w s cw s' :
  get_current_weather lat lon w s = (Returns cw, s') ->
  cw = PNone
  \/ exists c fields, upstream_current w lat lon c /\ cw = PDict fields.
Proof.
  intros H.
  cbv [get_current_weather try_except requests_get mbind M_bind mret M_ret
       emit open_meteo_reply datetime_now response_json py_get lift raise
       print random_randint next_draw] in H.
  cbn [clock_reads draws trace] in H.
  destruct (open_meteo w base_url _) as [r|text] eqn:Hreply;
    [|cbn in H; left; congruence].
  match type of H with
  | context [raise_for_status r w ?s0] =>
      destruct (raise_for_status_cases r w s0) as [[Hok Hst]|[text Hst]];
      rewrite Hst in H; [|cbn in H; left; congruence]
  end.
  destruct (json_body r) as [msg|data] eqn:Hjson;
    [cbn in H; left; congruence|].
  destruct data as [| | | | |?|d]; try (cbn in H; discriminate H).
  destruct (default (PDict []) (assoc "current_weather" d))
    as [| | | | |?|c] eqn:Hc; try (cbn in H; discriminate H).
  cbn in H. injection H as <- _. right. exists c. eexists.
  split; [|reflexivity]. exists r, d. repeat split; assumption.
Qed.

(** C8: a current-weather fetch that hands back a value got its request
    answered (passing status, JSON object, current-conditions member an
    object or missing); and whenever the request is so answered the fetch
    hands back a dict, not [None], in which, separately for each of the two
    fields, a value present upstream is passed on as it is and a missing one
    is replaced by an integer, in 30..90 for humidity and in 980..1050 for
    pressure. *)
Theorem current_weather_placeholders w lat lon s :
  (forall cw s',
     get_current_weather lat lon w s = (Returns cw, s') ->
     py_is_none cw = false ->
     exists c, upstream_current w lat lon c)
  /\ (forall c,
        upstream_current w lat lon c ->
        exists fields s',
          get_current_weather lat lon w s = (Returns (PDict fields), s')
          /\ (assoc "relative_humidity" c = None ->
              exists n, assoc "humidity" fields = Some (PInt n)
                        /\ (30 <= n <= 90))
          /\ (assoc "pressure_msl" c = None ->
              exists n, assoc "pressure" fields = Some (PInt n)
                        /\ (980 <= n <= 1050))
          /\ (forall v, assoc "relative_humidity" c = Some v ->
              assoc "humidity" fields = Some v)
          /\ (forall v, assoc "pressure_msl" c = Some v ->
              assoc "pressure" fields = Some v)).
Proof.
  split.
  { intros cw s' Hrun Hsome.
    destruct (get_current_weather_returns _ _ _ _ _ _ Hrun)
      as [->|(c & fields & Hup & _)]; [discriminate Hsome|].
    exists c. exact Hup. }
  intros c (r & d & Hreply & Hok & Hjson & Hcw).
  unfold get_current_weather, try_except, requests_get.
  rewrite !run_bind. cbn [emit]. unfold open_meteo_reply at 1.
  rewrite Hreply. rewrite run_bind, (raise_for_status_ok _ _ _ Hok), run_bind.
  unfold response_json. rewrite Hjson, run_ret, run_bind.
  cbn [py_get]. rewrite run_ret, Hcw.
  cbv [mbind M_bind mret M_ret datetime_now py_get random_randint next_draw].
  eexists _, _. split; [reflexivity|].
  cbn [assoc String.eqb Ascii.eqb Bool.eqb clock_reads draws trace].
  repeat split.
  - intros ->. eexists. split; [reflexivity|].
    apply randint_of_range. lia.
  - intros ->. eexists. split; [reflexivity|].
    apply randint_of_range. lia.
  - intros v ->. reflexivity.
  - intros v ->. reflexivity.
Qed.

Lemma current_weather_placeholders_witness :
  exists fields s',
    get_current_weather here_lat here_lon everything_works fresh
      = (Returns (PDict fields), s')
    /\ (exists n, assoc "humidity" fields = Some (PInt n) /\ (30 <= n <= 90))
    /\ (exists n, assoc "pressure" fields = Some (PInt n)
                  /\ (980 <= n <= 1050)).
Proof.
  destruct (proj2 (current_weather_placeholders everything_works here_lat
                     here_lon fresh)
              [("temperature", PFloat (215 # 10));
               ("windspeed", PFloat (72 # 10)); ("winddirection", PInt 240)])
    as (fields & s' & Hrun & Hhum & Hpre & _).
  - eexists _, _. repeat split; vm_compute; reflexivity.
  - exists fields, s'. split; [exact Hrun|].
    split; [apply Hhum | apply Hpre]; reflexivity.
Defined.

(** ** The hourly fetcher *)

Lemma get_hourly_weather_returns lat lon e w s hw s' :
  get_hourly_weather lat lon e w s = (Returns hw, s') ->
  hw = PNone \/
  exists times speeds directions n points,
    upstream_hourly w lat lon s times speeds directions
    /\ len_of times = Returns n
    /\ hw = PList points
    /\ for_append (hourly_point times speeds directions)
         (py_range (Z.min (e + 1) n)) [] w (hourly_started w lat lon s)
       = (Returns points, s').
Proof.
  intros H.
  cbv [get_hourly_weather try_except requests_get mbind M_bind mret M_ret
       emit open_meteo_reply datetime_now response_json py_get py_len lift
       raise print] in H.
  cbn [clock_reads draws trace] in H.
  change (hourly_params lat lon _ _) with (hourly_request w lat lon s) in H.
  change (State (S (S (clock_reads s))) (draws s) _)
    with (hourly_started w lat lon s) in H.
  destruct (open_meteo w base_url _) as [r|text] eqn:Hreply;
    [|cbn in H; left; congruence].
  destruct (raise_for_status_cases r w (hourly_started w lat lon s))
    as [[Hok Hst]|[text Hst]]; rewrite Hst in H;
    [|cbn in H; left; congruence].
  destruct (json_body r) as [msg|data] eqn:Hjson;
    [cbn in H; left; congruence|].
  destruct data as [| | | | |?|d]; try (cbn in H; discriminate H).
  destruct (default (PDict []) (assoc "hourly" d)) as [| | | | |?|h] eqn:Hh;
    try (cbn in H; discriminate H).
  destruct (len_of (default (PList []) (assoc "time" h))) as [n|ex] eqn:Hlen;
    [|destruct ex as [[] ?]; cbn in H;
      first [discriminate H | left; congruence]].
  destruct (for_append _ _ _ w _) as [[points|ex] s3] eqn:Hloop.
  - injection H as <- <-. right.
    eexists _, _, _, n, points. repeat split; [|exact Hlen|exact Hloop].
    exists r, d, h. repeat split; assumption.
  - destruct (only_request_exception (exn_kind_of ex));
      [left; congruence | discriminate H].
Qed.

(** With the request answered and the arrays at hand, a loop that runs to
    its end is the result of the fetch. *)
Lemma get_hourly_weather_run lat lon e w s times speeds directions n points s' :
  upstream_hourly w lat lon s times speeds directions ->
  len_of times = Returns n ->
  for_append (hourly_point times speeds directions)
    (py_range (Z.min (e + 1) n)) [] w (hourly_started w lat lon s)
    = (Returns points, s') ->
  get_hourly_weather lat lon e w s = (Returns (PList points), s').
Proof.
  intros (r & d & h & Hreply & Hok & Hjson & Hh & -> & -> & ->) Hlen Hloop.
  cbv [get_hourly_weather try_except requests_get mbind M_bind mret M_ret
       emit open_meteo_reply datetime_now response_json py_get py_len lift
       raise print].
  cbn [clock_reads draws trace].
  change (hourly_params lat lon _ _) with (hourly_request w lat lon s).
  change (State (S (S (clock_reads s))) (draws s) _)
    with (hourly_started w lat lon s).
  rewrite Hreply, (raise_for_status_ok _ _ _ Hok), Hjson, Hh, Hlen, Hloop.
  reflexivity.
Qed.

Lemma upstream_hourly_unique w lat lon s t1 s1 d1 t2 s2 d2 :
  upstream_hourly w lat lon s t1 s1 d1 ->
  upstream_hourly w lat lon s t2 s2 d2 ->
  t1 = t2 /\ s1 = s2 /\ d1 = d2.
Proof.
  intros (r & d & h & Hreply & _ & Hjson & Hh & -> & -> & ->)
         (r' & d' & h' & Hreply' & _ & Hjson' & Hh' & -> & -> & ->).
  rewrite Hreply in Hreply'. injection Hreply' as <-.
  rewrite Hjson in Hjson'. injection Hjson' as <-.
  rewrite Hh in Hh'. injection Hh' as <-. repeat split.
Qed.

Lemma unit_interval_range raw :
  (0 <= unit_interval raw)%Q /\ (unit_interval raw < 1)%Q.
Proof.
  unfold unit_interval, Qle, Qlt. cbn [Qnum Qden].
  pose proof (N.mod_upper_bound raw (2 ^ 53)) as Hlt.
  assert (Hpos : (2 ^ 53 <> 0)%N) by (cbv; discriminate).
  specialize (Hlt Hpos).
  assert (Hden : Z.pos (2 ^ 53) = Z.of_N (2 ^ 53)) by reflexivity.
  rewrite Hden. clear Hden Hpos.
  generalize dependent (2 ^ 53)%N. intros m.
  generalize (raw mod m)%N. intros x Hlt. lia.
Qed.

Lemma uniform_of_range a b raw :
  a < b ->
  (inject_Z a <= uniform_of a b (unit_interval raw))%Q
  /\ (uniform_of a b (unit_interval raw) < inject_Z b)%Q.
Proof.
  intros Hab. destruct (unit_interval_range raw) as [H0 H1].
  unfold uniform_of. set (u := unit_interval raw) in *.
  assert (HAB : (inject_Z a < inject_Z b)%Q) by (rewrite <- Zlt_Qlt; exact Hab).
  split; nra.
Qed.

Lemma for_append_returns body idxs acc w s out s' :
  for_append body idxs acc w s = (Returns out, s') ->
  exists points,
    out = acc ++ points
    /\ length points = length idxs
    /\ forall k i, idxs !! k = Some i ->
         exists point sa sb,
           points !! k = Some point /\ body i w sa = (Returns point, sb).
Proof.
  revert acc s. induction idxs as [|i rest IH]; intros acc s H.
  - cbn in H. injection H as <- <-. exists []. rewrite app_nil_r.
    repeat split. intros k i Hk. discriminate Hk.
  - cbn [for_append] in H. rewrite run_bind in H.
    destruct (body i w s) as [[point|ex] s1] eqn:Hbody; [|discriminate H].
    destruct (IH _ _ H) as (points & -> & Hlen & Hall).
    exists (point :: points). rewrite <- app_assoc. repeat split.
    + cbn. rewrite Hlen. reflexivity.
    + intros [|k] j Hk.
      * injection Hk as <-. exists point, s, s1. split; [reflexivity|exact Hbody].
      * apply (Hall k j Hk).
Qed.

Lemma for_append_total body idxs acc w s :
  (forall i s0, i ∈ idxs -> exists point s1, body i w s0 = (Returns point, s1)) ->
  exists out s', for_append body idxs acc w s = (Returns out, s').
Proof.
  revert acc s. induction idxs as [|i rest IH]; intros acc s Hbody.
  - eexists _, _. reflexivity.
  - cbn [for_append]. rewrite run_bind.
    destruct (Hbody i s) as (point & s1 & ->); [left|].
    apply IH. intros j s0 Hj. apply Hbody. right. exact Hj.
Qed.

Lemma py_range_lookup n k i :
  py_range n !! k = Some i -> i = Z.of_nat k /\ Z.of_nat k < n.
Proof.
  unfold py_range. rewrite list_lookup_fmap.
  destruct (seq 0 (Z.to_nat n) !! k) as [j|] eqn:Hj; [|discriminate].
  apply lookup_seq in Hj as [-> Hlt]. cbn. intros [= <-]. split; lia.
Qed.

Lemma py_range_length n : length (py_range n) = Z.to_nat n.
Proof. unfold py_range. rewrite length_fmap, length_seq. reflexivity. Qed.

Lemma entry_or_uniform_returns xs i a b w s v s' :
  a < b ->
  entry_or_uniform xs i a b w s = (Returns v, s') ->
  slot_value w xs i a b v.
Proof.
  intros Hab H. unfold entry_or_uniform, py_len, py_index in H.
  rewrite run_bind in H. unfold lift at 1 in H.
  destruct (len_of xs) as [n|ex] eqn:Hlen; [|discriminate H].
  exists n. split; [exact Hlen|].
  destruct (i <? n).
  - unfold lift in H. injection H as -> _. reflexivity.
  - cbv [random_uniform random_random next_draw mbind M_bind mret M_ret] in H.
    injection H as <- _. exists (draws s). cbv zeta.
    split; [reflexivity|]. apply uniform_of_range, Hab.
Qed.

Lemma hourly_point_returns times speeds directions i w s point s' :
  hourly_point times speeds directions i w s = (Returns point, s') ->
  exists t speed direction,
    point = PDict [("time", t); ("wind_speed", speed);
                   ("wind_direction", direction)]
    /\ item_of times i = Returns t
    /\ slot_value w speeds i 3 8 speed
    /\ slot_value w directions i 0 360 direction.
Proof.
  intros H. unfold hourly_point, py_index in H.
  rewrite run_bind in H. unfold lift at 1 in H.
  destruct (item_of times i) as [t|ex] eqn:Ht; [|discriminate H].
  rewrite run_bind in H.
  destruct (entry_or_uniform speeds i _ _ w s) as [[speed|ex] s1] eqn:Hs;
    [|discriminate H].
  rewrite run_bind in H.
  destruct (entry_or_uniform directions i _ _ w s1) as [[direction|ex] s2]
    eqn:Hd; [|discriminate H].
  injection H as <- <-. exists t, speed, direction.
  split; [reflexivity|]. split; [reflexivity|]. split.
  - exact (entry_or_uniform_returns speeds i 3 8 w s speed s1 eq_refl Hs).
  - exact (entry_or_uniform_returns directions i 0 360 w s1 direction s2
             eq_refl Hd).
Qed.

(** Every point of a completed fetch, slot by slot. *)
Lemma hourly_points_spec w lat lon s e times speeds directions points s' :
  upstream_hourly w lat lon s times speeds directions ->
  get_hourly_weather lat lon e w s = (Returns (PList points), s') ->
  exists n,
    len_of times = Returns n
    /\ length points = Z.to_nat (Z.min (e + 1) n)
    /\ forall k point, points !! k = Some point ->
         exists t speed direction,
           point = PDict [("time", t); ("wind_speed", speed);
                          ("wind_direction", direction)]
           /\ item_of times (Z.of_nat k) = Returns t
           /\ slot_value w speeds (Z.of_nat k) 3 8 speed
           /\ slot_value w directions (Z.of_nat k) 0 360 direction.
Proof.
  intros Hup Hrun.
  destruct (get_hourly_weather_returns _ _ _ _ _ _ _ Hrun)
    as [Hnone|(t' & s0 & d' & n & pts & Hup' & Hlen & Heq & Hloop)];
    [discriminate Hnone|].
  injection Heq as <-.
  destruct (upstream_hourly_unique _ _ _ _ _ _ _ _ _ _ Hup Hup')
    as (<- & <- & <-).
  exists n. split; [exact Hlen|].
  destruct (for_append_returns _ _ _ _ _ _ _ Hloop) as (pts & Hout & Hn & Hall).
  cbn [app] in Hout. subst pts.
  rewrite py_range_length in Hn. split; [exact Hn|].
  intros k point Hk.
  assert (Hlt : (k < length (py_range (Z.min (e + 1) n)))%nat).
  { rewrite py_range_length, <- Hn. eapply lookup_lt_Some, Hk. }
  apply lookup_lt_is_Some_2 in Hlt as [i Hi].
  destruct (Hall k i Hi) as (point' & sa & sb & Hk' & Hbody).
  rewrite Hk in Hk'. injection Hk' as <-.
  apply py_range_lookup in Hi as [-> _].
  exact (hourly_point_returns _ _ _ _ _ _ _ _ Hbody).
Qed.

Lemma item_of_list items i :
  0 <= i ->
  item_of (PList items) i =
  match items !! Z.to_nat i with
  | Some x => Returns x
  | None => Raises (Exn IndexError "list index out of range")
  end.
Proof.
  intros Hi. cbn [item_of]. cbv zeta.
  assert ((i <? 0) = false) as Hneg by lia. rewrite !Hneg. reflexivity.
Qed.

Lemma entry_or_uniform_total items i a b w s :
  0 <= i ->
  exists v s1, entry_or_uniform (PList items) i a b w s = (Returns v, s1).
Proof.
  intros Hi. unfold entry_or_uniform, py_len, py_index.
  rewrite run_bind. cbn [len_of lift].
  destruct (i <? Z.of_nat (length items)) eqn:Hlt.
  - rewrite item_of_list by exact Hi.
    destruct (lookup_lt_is_Some_2 items (Z.to_nat i)) as [x ->]; [lia|].
    eexists _, _. reflexivity.
  - eexists _, _. reflexivity.
Qed.

Lemma hourly_point_total ts speeds directions i w s :
  0 <= i < Z.of_nat (length ts) ->
  exists point s1,
    hourly_point (PList ts) (PList speeds) (PList directions) i w s
      = (Returns point, s1).
Proof.
  intros Hi. unfold hourly_point, py_index.
  rewrite run_bind, item_of_list by lia. cbn [lift].
  destruct (lookup_lt_is_Some_2 ts (Z.to_nat i)) as [t ->]; [lia|].
  rewrite run_bind.
  destruct (entry_or_uniform_total speeds i (base_wind_speed - 2)
              (base_wind_speed + 3) w s) as (speed & s1 & ->); [lia|].
  rewrite run_bind.
  destruct (entry_or_uniform_total directions i 0 360 w s1)
    as (direction & s2 & ->); [lia|].
  eexists _, _. reflexivity.
Qed.

(** With three lists upstream the fetch cannot fail, whatever the hour. *)
Lemma get_hourly_weather_total w lat lon s e ts speeds directions :
  upstream_hourly w lat lon s (PList ts) (PList speeds) (PList directions) ->
  exists points s',
    get_hourly_weather lat lon e w s = (Returns (PList points), s').
Proof.
  intros Hup.
  destruct (for_append_total
              (hourly_point (PList ts) (PList speeds) (PList directions))
              (py_range (Z.min (e + 1) (Z.of_nat (length ts)))) [] w
              (hourly_started w lat lon s)) as (points & s' & Hloop).
  { intros i s0 Hin. apply list_elem_of_lookup in Hin as [k Hk].
    apply py_range_lookup in Hk as [-> Hlt].
    apply hourly_point_total. lia. }
  exists points, s'.
  eapply get_hourly_weather_run; [exact Hup|reflexivity|exact Hloop].
Qed.

Lemma point_times_take w lat lon s e ts speeds directions points s' :
  upstream_hourly w lat lon s (PList ts) speeds directions ->
  get_hourly_weather lat lon e w s = (Returns (PList points), s') ->
  point_time <$> points = take (Z.to_nat (e + 1)) ts.
Proof.
  intros Hup Hrun.
  destruct (hourly_points_spec _ _ _ _ _ _ _ _ _ _ Hup Hrun)
    as (n & Hlen & Hn & Hall).
  cbn [len_of] in Hlen. injection Hlen as <-.
  apply list_eq. intros k. rewrite list_lookup_fmap.
  destruct (points !! k) as [point|] eqn:Hk; cbn [fmap option_fmap option_map].
  - destruct (Hall k point Hk) as (t & speed & direction & -> & Ht & _).
    pose proof (lookup_lt_Some _ _ _ Hk) as Hlt.
    rewrite item_of_list, Nat2Z.id in Ht by lia.
    destruct (ts !! k) as [t'|] eqn:Ht'; [|discriminate Ht].
    injection Ht as <-.
    rewrite lookup_take_lt by lia. rewrite Ht'. reflexivity.
  - apply lookup_ge_None_1 in Hk. symmetry. apply lookup_ge_None_2.
    rewrite length_take. lia.
Qed.

Lemma everything_works_hourly :
  upstream_hourly everything_works here_lat here_lon fresh
    (PList day_times) (PList day_speeds) (PList day_directions).
Proof.
  eexists _, _, _. repeat split; vm_compute; reflexivity.
Qed.

(** C5, as the code has it: a completed hourly fetch has
    [max(0, min(end_hour + 1, n))] points, [n] the length of the upstream
    time array, and point [k] carries the [k]-th upstream time stamp.  When
    the three upstream arrays are lists the fetch always completes and its
    time stamps are the first [end_hour + 1] upstream ones; with 24 of them,
    [end_hour = 3] gives the 4 points of indices 0 to 3 and [end_hour = 30]
    gives all 24. *)
Theorem hourly_point_count w lat lon s end_hour times speeds directions :
  upstream_hourly w lat lon s times speeds directions ->
  (forall points s',
     get_hourly_weather lat lon end_hour w s = (Returns (PList points), s') ->
     exists n,
       len_of times = Returns n
       /\ Z.of_nat (length points) = Z.max 0 (Z.min (end_hour + 1) n)
       /\ forall k point, points !! k = Some point ->
            item_of times (Z.of_nat k) = Returns (point_time point))
  /\ (forall ts wsl wdl,
        times = PList ts -> speeds = PList wsl -> directions = PList wdl ->
        exists points s',
          get_hourly_weather lat lon end_hour w s
            = (Returns (PList points), s')
          /\ point_time <$> points = take (Z.to_nat (end_hour + 1)) ts
          /\ (length ts = 24%nat -> end_hour = 3 ->
              length points = 4%nat /\ point_time <$> points = take 4 ts)
          /\ (length ts = 24%nat -> end_hour = 30 ->
              length points = 24%nat /\ point_time <$> points = ts)).
Proof.
  intros Hup. split.
  - intros points s' Hrun.
    destruct (hourly_points_spec _ _ _ _ _ _ _ _ _ _ Hup Hrun)
      as (n & Hlen & Hn & Hall).
    exists n. split; [exact Hlen|]. split; [lia|].
    intros k point Hk.
    destruct (Hall k point Hk) as (t & speed & direction & -> & Ht & _).
    exact Ht.
  - intros ts wsl wdl -> -> ->.
    destruct (get_hourly_weather_total w lat lon s end_hour ts wsl wdl Hup)
      as (points & s' & Hrun).
    pose proof (point_times_take _ _ _ _ _ _ _ _ _ _ Hup Hrun) as Htimes.
    exists points, s'. split; [exact Hrun|]. split; [exact Htimes|].
    assert (Hlen : length points
                   = length (take (Z.to_nat (end_hour + 1)) ts)).
    { rewrite <- Htimes, length_fmap. reflexivity. }
    rewrite length_take in Hlen.
    split; intros H24 ->.
    + split; [rewrite Hlen, H24; reflexivity | exact Htimes].
    + split; [rewrite Hlen, H24; reflexivity |].
      rewrite Htimes. apply take_ge. rewrite H24. cbn. lia.
Qed.

Lemma hourly_point_count_witness :
  exists points s',
    get_hourly_weather here_lat here_lon 3 everything_works fresh
      = (Returns (PList points), s')
    /\ point_time <$> points = take 4 day_times
    /\ length points = 4%nat.
Proof.
  destruct (proj2 (hourly_point_count everything_works here_lat here_lon fresh 3
                     (PList day_times) (PList day_speeds)
                     (PList day_directions) everything_works_hourly)
              day_times day_speeds day_directions eq_refl eq_refl eq_refl)
    as (points & s' & Hrun & Htimes & H3 & _).
  exists points, s'. split; [exact Hrun|]. split; [exact Htimes|].
  apply H3; reflexivity.
Defined.

(** C5 as worded fails for an hour below -1: the fetch completes with no
    point, while [min(end_hour + 1, n)] is negative. *)
Lemma negative_hour_count_not_min :
  (exists s',
     get_hourly_weather here_lat here_lon (-2) everything_works fresh
       = (Returns (PList []), s'))
  /\ Z.min (-2 + 1) 24 = -1
  /\ ~ count_is_min everything_works here_lat here_lon (-2) fresh.
Proof.
  assert (Hrun : exists s',
             get_hourly_weather here_lat here_lon (-2) everything_works fresh
               = (Returns (PList []), s')).
  { eexists. vm_compute. reflexivity. }
  split; [exact Hrun|]. split; [reflexivity|].
  intros Hmin. destruct Hrun as [s' Hrun].
  specialize (Hmin _ _ _ 24 [] s' everything_works_hourly eq_refl Hrun).
  discriminate Hmin.
Qed.

(** C6, as the code has it: in every point of a completed fetch each of
    the two wind fields is decided on its own.  The wind speed is the entry
    of the wind-speed array at that index when that array reaches the
    index, and otherwise a [random.uniform(3, 8)] draw, a float in
    [[3, 8)]; the wind direction likewise from its own array, and otherwise
    a [random.uniform(0, 360)] draw, a float in [[0, 360)]. *)
Theorem hourly_slot_fields w lat lon s end_hour times speeds directions
    points s' :
  upstream_hourly w lat lon s times speeds directions ->
  get_hourly_weather lat lon end_hour w s = (Returns (PList points), s') ->
  forall k point, points !! k = Some point ->
    exists t speed direction,
      point = PDict [("time", t); ("wind_speed", speed);
                     ("wind_direction", direction)]
      /\ slot_value w speeds (Z.of_nat k) 3 8 speed
      /\ slot_value w directions (Z.of_nat k) 0 360 direction.
Proof.
  intros Hup Hrun k point Hk.
  destruct (hourly_points_spec _ _ _ _ _ _ _ _ _ _ Hup Hrun)
    as (n & _ & _ & Hall).
  destruct (Hall k point Hk) as (t & speed & direction & Hpt & _ & Hs & Hd).
  exists t, speed, direction. repeat split; assumption.
Qed.

Lemma lopsided_arrays_hourly :
  upstream_hourly lopsided_arrays here_lat here_lon fresh
    (PList [hour_label 0]) (PList [PFloat (inject_Z 100)]) (PList []).
Proof.
  eexists _, _, _. repeat split; vm_compute; reflexivity.
Qed.

Lemma hourly_slot_fields_witness :
  exists s' point t speed direction,
    get_hourly_weather here_lat here_lon 0 lopsided_arrays fresh
      = (Returns (PList [point]), s')
    /\ point = PDict [("time", t); ("wind_speed", speed);
                      ("wind_direction", direction)]
    /\ slot_value lopsided_arrays (PList [PFloat (inject_Z 100)]) 0 3 8 speed
    /\ slot_value lopsided_arrays (PList []) 0 0 360 direction.
Proof.
  eexists _, _.
  assert (Hrun : get_hourly_weather here_lat here_lon 0 lopsided_arrays fresh
                 = (Returns (PList [_]), _)) by (vm_compute; reflexivity).
  destruct (hourly_slot_fields lopsided_arrays here_lat here_lon fresh 0
              _ _ _ _ _ lopsided_arrays_hourly Hrun 0%nat _ eq_refl)
    as (t & speed & direction & Hpt & Hs & Hd).
  exists t, speed, direction. split; [exact Hrun|].
  split; [exact Hpt|]. split; [exact Hs | exact Hd].
Defined.

(** C6 as worded fails when only one array is short: with a wind speed of
    100 upstream and no wind direction, the point keeps the speed 100 and
    only the direction is drawn. *)
Lemma speed_kept_when_direction_missing :
  exists direction s',
    get_hourly_weather here_lat here_lon 0 lopsided_arrays fresh
      = (Returns (PList [PDict [("time", hour_label 0);
                                ("wind_speed", PFloat (inject_Z 100));
                                ("wind_direction", direction)]]), s')
    /\ has_entry (PList [PFloat (inject_Z 100)]) 0 = true
    /\ has_entry (PList []) 0 = false
    /\ ~ both_or_substituted (PList [PFloat (inject_Z 100)]) (PList []) 0
           (PFloat (inject_Z 100)) direction.
Proof.
  eexists _, _. split; [vm_compute; reflexivity|].
  split; [reflexivity|]. split; [reflexivity|].
  unfold both_or_substituted. cbn [has_entry len_of length andb Z.ltb].
  intros [(x & Hx & _ & Hhi) _].
  injection Hx as <-. vm_compute in Hhi. apply Hhi. reflexivity.
Qed.

(** ** The handler when every stage succeeds *)

Lemma handler_all_stages w req s h cw hw s' :
  every_stage_succeeds w req s h cw hw s' ->
  handler req w s = (Returns (reply 200 (ok_body cw hw)), s').
Proof.
  intros (city & hour & lat & lon & s1 & s2 & Hcity & Hhour & Hparse & Hgeo
          & Hlat & Hlon & Hcur & Hcw & Hhr & Hhw).
  unfold handler. rewrite Hcity, Hhour, run_bind, Hgeo, Hlat, Hlon.
  cbn [orb]. rewrite run_bind, Hcur, Hcw.
  unfold py_int. rewrite Hparse, run_bind, run_ret, run_bind, Hhr, Hhw.
  reflexivity.
Qed.

Lemma hourly_value_is_list lat lon e w s hw s' :
  get_hourly_weather lat lon e w s = (Returns hw, s') ->
  py_is_none hw = false ->
  exists points,
    hw = PList points /\ Z.of_nat (length points) <= Z.max 0 (e + 1)
    /\ (e < 0 -> points = []).
Proof.
  intros Hrun Hsome.
  destruct (get_hourly_weather_returns _ _ _ _ _ _ _ Hrun)
    as [->|(times & speeds & directions & n & points & Hup & Hlen & -> & _)];
    [discriminate Hsome|].
  destruct (hourly_points_spec _ _ _ _ _ _ _ _ _ _ Hup Hrun)
    as (n' & _ & Hn & _).
  exists points. split; [reflexivity|]. split; [lia|].
  intros Hneg. apply nil_length_inv. lia.
Qed.

(** C1, as the code has it: when the geocoder, the current-weather fetch
    and the hourly fetch all hand back a value, the handler answers 200 with
    a body of exactly two members, the current-weather object and the list
    of hourly points, and that list has at most [max(0, hour + 1)] points
    (so at most [hour + 1] whenever [hour] is at least -1). *)
Theorem handler_success w req s h cw hw s' :
  every_stage_succeeds w req s h cw hw s' ->
  exists fields points,
    cw = PDict fields
    /\ hw = PList points
    /\ handler req w s
       = (Returns (reply 200 (PDict [("current_weather", PDict fields);
                                     ("hourly_weather", PList points)])), s')
    /\ Z.of_nat (length points) <= Z.max 0 (h + 1)
    /\ (-1 <= h -> Z.of_nat (length points) <= h + 1).
Proof.
  intros Hall. pose proof (handler_all_stages _ _ _ _ _ _ _ Hall) as Hrun.
  destruct Hall as (city & hour & lat & lon & s1 & s2 & _ & _ & _ & _
                    & _ & _ & Hcur & Hcw & Hhr & Hhw).
  destruct (get_current_weather_returns _ _ _ _ _ _ Hcur)
    as [->|(c & fields & _ & ->)]; [discriminate Hcw|].
  destruct (hourly_value_is_list _ _ _ _ _ _ _ Hhr Hhw)
    as (points & -> & Hlen & _).
  exists fields, points. repeat split; [exact Hrun|exact Hlen|lia].
Qed.

Ltac run_every_stage city hour :=
  eexists _, _, _; exists city, hour, here_lat, here_lon; eexists _, _;
  repeat split; vm_compute; reflexivity.

Lemma everything_works_at_3 :
  exists cw hw s',
    every_stage_succeeds everything_works (ask "Paris" "3") fresh 3 cw hw s'.
Proof. run_every_stage "Paris" "3". Qed.

Lemma everything_works_at_minus_2 :
  exists cw hw s',
    every_stage_succeeds everything_works (ask "Paris" "-2") fresh
      (-2) cw hw s'.
Proof. run_every_stage "Paris" "-2". Qed.

Lemma everything_works_at_minus_5 :
  exists cw hw s',
    every_stage_succeeds everything_works (ask "Paris" "-5") fresh
      (-5) cw hw s'.
Proof. run_every_stage "Paris" "-5". Qed.

Lemma handler_success_witness :
  exists fields points s',
    handler (ask "Paris" "3") everything_works fresh
      = (Returns (reply 200 (PDict [("current_weather", PDict fields);
                                    ("hourly_weather", PList points)])), s')
    /\ Z.of_nat (length points) <= 3 + 1.
Proof.
  destruct everything_works_at_3 as (cw & hw & s' & Hall).
  destruct (handler_success _ _ _ _ _ _ _ Hall)
    as (fields & points & _ & _ & Hrun & _ & Hle).
  exists fields, points, s'. split; [exact Hrun|]. apply Hle. lia.
Defined.

(** C1 as worded fails for an hour below -1: every stage succeeds, the
    handler answers 200 with an empty list, and 0 is not at most
    [-2 + 1]. *)
Lemma negative_hour_exceeds_bound :
  (exists cw hw s',
     every_stage_succeeds everything_works (ask "Paris" "-2") fresh
       (-2) cw hw s')
  /\ ~ hourly_within_hour_plus_one everything_works (ask "Paris" "-2") fresh.
Proof.
  pose proof everything_works_at_minus_2 as Hex.
  split; [exact Hex|].
  destruct Hex as (cw & hw & s' & Hall). intros Hbound.
  destruct (Hbound _ _ _ _ Hall) as (points & _ & _ & Hle). lia.
Qed.

(** C10: for a negative hour, an hourly fetch that hands back a value hands
    back the empty list, not [None] (and it does hand back the empty list as
    soon as its request is answered with a time array that has a length); so
    when the earlier stages have succeeded too the handler answers 200 with
    an empty [hourly_weather]. *)
Theorem negative_hour_empty_list w req s h cw hw s' :
  h < 0 ->
  every_stage_succeeds w req s h cw hw s' ->
  hw = PList []
  /\ handler req w s = (Returns (reply 200 (ok_body cw (PList []))), s')
  /\ (forall lat lon s0 hw0 s0',
        get_hourly_weather lat lon h w s0 = (Returns hw0, s0') ->
        py_is_none hw0 = false -> hw0 = PList [])
  /\ (forall lat lon s0 times speeds directions n,
        upstream_hourly w lat lon s0 times speeds directions ->
        len_of times = Returns n ->
        get_hourly_weather lat lon h w s0
          = (Returns (PList []), hourly_started w lat lon s0)).
Proof.
  intros Hneg Hall.
  assert (Hfetch : forall lat lon s0 hw0 s0',
             get_hourly_weather lat lon h w s0 = (Returns hw0, s0') ->
             py_is_none hw0 = false -> hw0 = PList []).
  { intros lat lon s0 hw0 s0' Hrun Hsome.
    destruct (hourly_value_is_list _ _ _ _ _ _ _ Hrun Hsome)
      as (points & -> & _ & Hnil).
    rewrite (Hnil Hneg). reflexivity. }
  pose proof (handler_all_stages _ _ _ _ _ _ _ Hall) as Hrun.
  destruct Hall as (city & hour & lat & lon & s1 & s2 & _ & _ & _ & _
                    & _ & _ & _ & _ & Hhr & Hhw).
  pose proof (Hfetch _ _ _ _ _ Hhr Hhw) as ->.
  split; [reflexivity|]. split; [exact Hrun|]. split; [exact Hfetch|].
  intros lat0 lon0 s0 times speeds directions n Hup Hlen.
  eapply get_hourly_weather_run; [exact Hup | exact Hlen |].
  unfold py_range. replace (Z.to_nat (Z.min (h + 1) n)) with 0%nat by lia.
  reflexivity.
Qed.

Lemma negative_hour_empty_list_witness :
  exists cw s',
    handler (ask "Paris" "-5") everything_works fresh
      = (Returns (reply 200 (ok_body cw (PList []))), s').
Proof.
  destruct everything_works_at_minus_5 as (cw & hw & s' & Hall).
  exists cw, s'.
  apply (negative_hour_empty_list everything_works (ask "Paris" "-5") fresh
           (-5) cw hw s'); [lia | exact Hall].
Defined.

(** * Further properties *)

(** ** [get_coordinates] *)

(** X1: [get_coordinates] never lets an exception out, whatever the
    geocoding service does.  It hands back the two coordinates of the match
    as floats, or [(None, None)], never a pair with a single [None]; it
    queries the service once, as ["weather_app"], and reads neither the clock
    nor the generator. *)
Theorem get_coordinates_never_raises w city s :
  exists lat lon s',
    get_coordinates city w s = (Returns (lat, lon), s')
    /\ py_is_none lat = py_is_none lon
    /\ (py_is_none lat = false <->
        exists loc, nominatim w "weather_app" city = GeoMatch loc
                    /\ lat = PFloat (latitude_of loc)
                    /\ lon = PFloat (longitude_of loc))
    /\ calls (drop (length (trace s)) (trace s'))
       = [Geocode "weather_app" city]
    /\ clock_reads s' = clock_reads s /\ draws s' = draws s.
Proof.
  pose proof (get_coordinates_run w city s) as Hrun.
  destruct (nominatim w "weather_app" city) as [loc| |e] eqn:Hreply;
    cbn [coordinates_of geocode_prints] in Hrun;
    eexists _, _, _; (split; [exact Hrun|]); cbn [py_is_none trace];
    (split; [reflexivity|]);
    (split; [|rewrite drop_app_length; repeat split]).
  - split; [|reflexivity]. intros _. exists loc. repeat split.
  - split; [discriminate|]. intros (loc & Hloc & _). discriminate Hloc.
  - split; [discriminate|]. intros (loc & Hloc & _). discriminate Hloc.
Qed.

(** ** [get_current_weather] *)

Lemma failure_text_none r :
  failure_text (HttpResponse r) = None ->
  status_ok r = true /\ exists data, json_body r = inr data.
Proof.
  unfold failure_text, status_ok.
  destruct ((400 <=? status_code r) && (status_code r <? 500)) eqn:H4;
    [discriminate|].
  destruct ((500 <=? status_code r) && (status_code r <? 600)) eqn:H5;
    [discriminate|].
  destruct (json_body r) as [msg|data]; [discriminate|].
  intros _. split; [lia | exists data; reflexivity].
Qed.

Lemma failure_text_some_status r msg w s :
  failure_text (HttpResponse r) = Some msg ->
  raise_for_status r w s = (Raises (Exn RequestException msg), s)
  \/ (raise_for_status r w s = (Returns tt, s) /\ json_body r = inl msg).
Proof.
  unfold failure_text, raise_for_status.
  destruct ((400 <=? status_code r) && (status_code r <? 500));
    [intros [= <-]; left; reflexivity|].
  destruct ((500 <=? status_code r) && (status_code r <? 600));
    [intros [= <-]; left; reflexivity|].
  destruct (json_body r) as [text|data]; [|discriminate].
  intros [= <-]. right. split; reflexivity.
Qed.

(** The run of the fetch when one of its first three steps fails. *)
Lemma get_current_weather_failed w lat lon s msg :
  failure_text (open_meteo w base_url (current_params lat lon)) = Some msg ->
  get_current_weather lat lon w s =
  (Returns PNone,
   State (clock_reads s) (draws s)
     (trace s ++ [HttpGet base_url (current_params lat lon);
                  Print ("Error fetching weather data: " +:+ msg)])).
Proof.
  intros Hfail.
  cbv [get_current_weather try_except requests_get mbind M_bind mret M_ret
       emit open_meteo_reply response_json lift raise print].
  cbn [clock_reads draws trace].
  destruct (open_meteo w base_url _) as [r|text].
  - match goal with
    | |- context [raise_for_status r w ?s0] =>
        destruct (failure_text_some_status r msg w s0 Hfail)
          as [Hst|[Hst Hjson]]; rewrite Hst
    end.
    + cbn. rewrite <- app_assoc. reflexivity.
    + rewrite Hjson. cbn. rewrite <- app_assoc. reflexivity.
  - injection Hfail as <-. cbn. rewrite <- app_assoc. reflexivity.
Qed.

(** The run of the fetch when its request is answered with an object. *)
Lemma get_current_weather_answered w lat lon s c :
  upstream_current w lat lon c ->
  get_current_weather lat lon w s =
  (Returns (current_weather_of c (wall_clock w (clock_reads s))
              (generator w (draws s)) (generator w (S (draws s)))),
   State (S (clock_reads s)) (S (S (draws s)))
     (trace s ++ [HttpGet base_url (current_params lat lon)])).
Proof.
  intros (r & d & Hreply & Hok & Hjson & Hcw).
  unfold get_current_weather, try_except, requests_get.
  rewrite !run_bind. cbn [emit]. unfold open_meteo_reply at 1.
  rewrite Hreply. rewrite run_bind, (raise_for_status_ok _ _ _ Hok), run_bind.
  unfold response_json. rewrite Hjson, run_ret, run_bind.
  cbn [py_get]. rewrite run_ret, Hcw. reflexivity.
Qed.

(** The run of the fetch when the body is JSON but [.get] cannot be
    called on it, or on its current-conditions member. *)
Lemma get_current_weather_not_object w lat lon s r data :
  open_meteo w base_url (current_params lat lon) = HttpResponse r ->
  status_ok r = true ->
  json_body r = inr data ->
  no_object_under "current_weather" data = true ->
  exists s',
    get_current_weather lat lon w s
      = (Raises (Exn AttributeError (no_get_text "current_weather" data)), s')
    /\ draws s' = draws s.
Proof.
  intros Hreply Hok Hjson Hbad.
  unfold get_current_weather, try_except, requests_get.
  rewrite !run_bind. cbn [emit]. unfold open_meteo_reply at 1.
  rewrite Hreply. rewrite run_bind, (raise_for_status_ok _ _ _ Hok), run_bind.
  unfold response_json. rewrite Hjson, run_ret, run_bind.
  destruct data as [| | | | | |d];
    try (eexists; split; reflexivity).
  cbn [py_get no_object_under] in *. rewrite run_ret.
  rewrite run_bind. cbn [datetime_now]. rewrite run_bind.
  unfold no_get_text.
  destruct (default (PDict []) (assoc "current_weather" d));
    try discriminate Hbad; eexists; split; reflexivity.
Qed.

(** X2: when the current-weather request fails in transport, or is answered
    with a status from 400 to 599, or with a body that is not JSON,
    [get_current_weather] hands back [None]; it has sent its one request and
    printed one line, the fixed prefix followed by the text of the error, and
    it has read neither the clock nor the generator.  It hands back [None]
    in no other case. *)
Theorem current_fetch_failure_absorbed w lat lon s :
  (forall msg,
     failure_text (open_meteo w base_url (current_params lat lon)) = Some msg ->
     get_current_weather lat lon w s =
     (Returns PNone,
      State (clock_reads s) (draws s)
        (trace s ++ [HttpGet base_url (current_params lat lon);
                     Print ("Error fetching weather data: " +:+ msg)])))
  /\ (forall s',
        get_current_weather lat lon w s = (Returns PNone, s') ->
        exists msg,
          failure_text (open_meteo w base_url (current_params lat lon))
            = Some msg).
Proof.
  split; [intros msg; apply get_current_weather_failed|].
  intros s' Hrun.
  destruct (failure_text (open_meteo w base_url (current_params lat lon)))
    as [msg|] eqn:Hfail; [exists msg; reflexivity|].
  exfalso.
  destruct (open_meteo w base_url (current_params lat lon)) as [r|text]
    eqn:Hreply; [|discriminate Hfail].
  destruct (failure_text_none r Hfail) as [Hok [data Hjson]].
  destruct (no_object_under "current_weather" data) eqn:Hobj.
  - destruct (get_current_weather_not_object w lat lon s r data
                Hreply Hok Hjson Hobj) as (s1 & Hraise & _).
    rewrite Hraise in Hrun. discriminate Hrun.
  - destruct data as [| | | | | |d]; try discriminate Hobj.
    cbn [no_object_under] in Hobj.
    destruct (default (PDict []) (assoc "current_weather" d))
      as [| | | | | |c] eqn:Hc; try discriminate Hobj.
    rewrite (get_current_weather_answered w lat lon s c) in Hrun.
    + discriminate Hrun.
    + exists r, d. repeat split; assumption.
Qed.

Lemma current_fetch_failure_absorbed_witness :
  get_current_weather here_lat here_lon meteo_down fresh =
  (Returns PNone,
   State 0 0 [HttpGet base_url (current_params here_lat here_lon);
              Print "Error fetching weather data: connection refused"]).
Proof.
  apply (proj1 (current_fetch_failure_absorbed meteo_down here_lat here_lon
                  fresh) "connection refused").
  reflexivity.
Defined.

(** X3: when the current-weather request is answered with a passing status
    and a JSON body that is not an object (an array, a string, a number,
    [null]), or an object whose ["current_weather"] member is not an object,
    the fetch does not hand back [None]: the [AttributeError] of [.get] is
    not a [RequestException], it leaves [get_current_weather] and, through
    it, the handler, which gives no status reply. *)
Theorem handler_aborts_on_non_object_body w req s city hour loc r data :
  query req !! "city" = Some city ->
  query req !! "hour" = Some hour ->
  nominatim w "weather_app" city = GeoMatch loc ->
  open_meteo w base_url
    (current_params (PFloat (latitude_of loc)) (PFloat (longitude_of loc)))
    = HttpResponse r ->
  status_ok r = true ->
  json_body r = inr data ->
  no_object_under "current_weather" data = true ->
  (forall s0, exists s0',
     get_current_weather (PFloat (latitude_of loc))
       (PFloat (longitude_of loc)) w s0
     = (Raises (Exn AttributeError (no_get_text "current_weather" data)),
        s0'))
  /\ exists s',
       handler req w s
       = (Raises (Exn AttributeError (no_get_text "current_weather" data)),
          s').
Proof.
  intros Hcity Hhour Hgeo Hreply Hok Hjson Hbad.
  assert (Hfetch : forall s0, exists s0',
             get_current_weather (PFloat (latitude_of loc))
               (PFloat (longitude_of loc)) w s0
             = (Raises (Exn AttributeError
                          (no_get_text "current_weather" data)), s0')).
  { intros s0.
    destruct (get_current_weather_not_object w _ _ s0 r data
                Hreply Hok Hjson Hbad) as (s0' & Hraise & _).
    exists s0'. exact Hraise. }
  split; [exact Hfetch|].
  unfold handler. rewrite Hcity, Hhour, run_bind, get_coordinates_run, Hgeo.
  cbn [coordinates_of py_is_none orb]. rewrite run_bind.
  match goal with
  | |- context [get_current_weather _ _ w ?s1] =>
      destruct (Hfetch s1) as [s1' Hraise]; rewrite Hraise
  end.
  eexists. reflexivity.
Qed.

Lemma handler_aborts_on_non_object_body_witness :
  exists s',
    handler (ask "Paris" "3") array_body fresh
      = (Raises (Exn AttributeError "'list' object has no attribute 'get'"),
         s').
Proof.
  apply (handler_aborts_on_non_object_body array_body (ask "Paris" "3")
           fresh "Paris" "3" paris
           (Response 200 "OK" base_url (inr (PList []))) (PList [])
           eq_refl eq_refl eq_refl eq_refl eq_refl eq_refl eq_refl).
Defined.

(** X4: when the current-weather request is answered with an object, the
    dict handed back has the six keys date, temperature, wind_speed,
    wind_direction, humidity, pressure, in this order; its date is the clock
    reading of the call, rendered as year-month-day hour:minute:second, not
    a value of the service; and temperature, wind speed and wind direction
    are the upstream values under ["temperature"], ["windspeed"] and
    ["winddirection"], each replaced by the string ["N/A"] when missing. *)
Theorem current_weather_fields w lat lon s c :
  upstream_current w lat lon c ->
  exists fields s',
    get_current_weather lat lon w s = (Returns (PDict fields), s')
    /\ fst <$> fields
       = ["date"; "temperature"; "wind_speed"; "wind_direction";
          "humidity"; "pressure"]
    /\ assoc "date" fields
       = Some (PStr (strftime_stamp (wall_clock w (clock_reads s))))
    /\ assoc "temperature" fields
       = Some (default (PStr "N/A") (assoc "temperature" c))
    /\ assoc "wind_speed" fields
       = Some (default (PStr "N/A") (assoc "windspeed" c))
    /\ assoc "wind_direction" fields
       = Some (default (PStr "N/A") (assoc "winddirection" c)).
Proof.
  intros Hup. eexists _, _.
  split; [apply (get_current_weather_answered w lat lon s c Hup)|].
  repeat split.
Qed.

Lemma current_weather_fields_witness :
  exists fields s',
    get_current_weather here_lat here_lon
      (World (fun _ _ => GeoMatch paris)
             (fun _ _ => ok_response (PDict [])) (fun _ => noon)
             sample_generator) fresh
      = (Returns (PDict fields), s')
    /\ assoc "date" fields = Some (PStr "2024-05-17 12:00:00")
    /\ assoc "temperature" fields = Some (PStr "N/A")
    /\ assoc "wind_speed" fields = Some (PStr "N/A")
    /\ assoc "wind_direction" fields = Some (PStr "N/A").
Proof.
  destruct (current_weather_fields
              (World (fun _ _ => GeoMatch paris)
                     (fun _ _ => ok_response (PDict [])) (fun _ => noon)
                     sample_generator) here_lat here_lon fresh [])
    as (fields & s' & Hrun & _ & Hdate & Htemp & Hspeed & Hdir).
  - eexists _, _. repeat split; vm_compute; reflexivity.
  - exists fields, s'. repeat split; assumption.
Defined.

(** X5: a current-weather fetch whose request is answered with an object
    reads the clock once and draws from the generator exactly twice, whether
    or not humidity and pressure are present upstream (the fallback of
    [.get] is computed before the lookup); a missing humidity is the first of
    the two draws mapped into 30..90 and a missing pressure the second one
    mapped into 980..1050.  The only event added is the request itself. *)
Theorem current_weather_draws_twice w lat lon s c :
  upstream_current w lat lon c ->
  exists fields s',
    get_current_weather lat lon w s = (Returns (PDict fields), s')
    /\ clock_reads s' = S (clock_reads s)
    /\ draws s' = S (S (draws s))
    /\ trace s' = trace s ++ [HttpGet base_url (current_params lat lon)]
    /\ (assoc "relative_humidity" c = None ->
        assoc "humidity" fields
        = Some (PInt (randint_of 30 90 (generator w (draws s)))))
    /\ (assoc "pressure_msl" c = None ->
        assoc "pressure" fields
        = Some (PInt (randint_of 980 1050 (generator w (S (draws s)))))).
Proof.
  intros Hup. eexists _, _.
  split; [apply (get_current_weather_answered w lat lon s c Hup)|].
  cbn [clock_reads draws trace assoc String.eqb Ascii.eqb Bool.eqb].
  repeat split; intros ->; reflexivity.
Qed.

Lemma current_weather_draws_twice_witness :
  exists fields s',
    get_current_weather here_lat here_lon everything_works fresh
      = (Returns (PDict fields), s')
    /\ clock_reads s' = 1%nat /\ draws s' = 2%nat.
Proof.
  destruct (current_weather_draws_twice everything_works here_lat here_lon
              fresh
              [("temperature", PFloat (215 # 10));
               ("windspeed", PFloat (72 # 10)); ("winddirection", PInt 240)])
    as (fields & s' & Hrun & Hclock & Hdraws & _).
  - eexists _, _. repeat split; vm_compute; reflexivity.
  - exists fields, s'. repeat split; assumption.
Defined.

(** ** [get_hourly_weather] *)

(** The run of the fetch when one of its first three steps fails. *)
Lemma get_hourly_weather_failed w lat lon e s msg :
  failure_text (open_meteo w base_url (hourly_request w lat lon s))
    = Some msg ->
  get_hourly_weather lat lon e w s =
  (Returns PNone,
   State (S (S (clock_reads s))) (draws s)
     (trace s ++ [HttpGet base_url (hourly_request w lat lon s);
                  Print ("Error fetching hourly weather data: " +:+ msg)])).
Proof.
  intros Hfail.
  cbv [get_hourly_weather try_except requests_get mbind M_bind mret M_ret
       emit open_meteo_reply datetime_now response_json lift raise print].
  cbn [clock_reads draws trace].
  change (hourly_params lat lon _ _) with (hourly_request w lat lon s).
  destruct (open_meteo w base_url _) as [r|text].
  - match goal with
    | |- context [raise_for_status r w ?s0] =>
        destruct (failure_text_some_status r msg w s0 Hfail)
          as [Hst|[Hst Hjson]]; rewrite Hst
    end.
    + cbn. rewrite <- app_assoc. reflexivity.
    + rewrite Hjson. cbn. rewrite <- app_assoc. reflexivity.
  - injection Hfail as <-. cbn. rewrite <- app_assoc. reflexivity.
Qed.

(** The run of the fetch on a JSON body without an object to read. *)
Lemma get_hourly_weather_not_object w lat lon e s r data :
  open_meteo w base_url (hourly_request w lat lon s) = HttpResponse r ->
  status_ok r = true ->
  json_body r = inr data ->
  no_object_under "hourly" data = true ->
  get_hourly_weather lat lon e w s
    = (Raises (Exn AttributeError (no_get_text "hourly" data)),
       hourly_started w lat lon s).
Proof.
  intros Hreply Hok Hjson Hbad.
  cbv [get_hourly_weather try_except requests_get mbind M_bind mret M_ret
       emit open_meteo_reply datetime_now response_json py_get py_len lift
       raise print].
  cbn [clock_reads draws trace].
  change (hourly_params lat lon _ _) with (hourly_request w lat lon s).
  change (State (S (S (clock_reads s))) (draws s) _)
    with (hourly_started w lat lon s).
  rewrite Hreply, (raise_for_status_ok _ _ _ Hok), Hjson.
  unfold no_get_text.
  destruct data as [| | | | | |d]; try reflexivity.
  cbn [no_object_under] in Hbad.
  destruct (default (PDict []) (assoc "hourly" d));
    try discriminate Hbad; reflexivity.
Qed.

Lemma len_of_raises_type_error v ex :
  len_of v = Raises ex -> exn_kind_of ex = TypeError.
Proof. destruct v; cbn; intros [= <-]; reflexivity. Qed.

(** The run of the fetch when the time array has no length. *)
Lemma get_hourly_weather_unsized_times w lat lon e s times speeds directions
    ex :
  upstream_hourly w lat lon s times speeds directions ->
  len_of times = Raises ex ->
  get_hourly_weather lat lon e w s = (Raises ex, hourly_started w lat lon s).
Proof.
  intros (r & d & h & Hreply & Hok & Hjson & Hh & -> & -> & ->) Hlen.
  pose proof (len_of_raises_type_error _ _ Hlen) as Hkind.
  cbv [get_hourly_weather try_except requests_get mbind M_bind mret M_ret
       emit open_meteo_reply datetime_now response_json py_get py_len lift
       raise print].
  cbn [clock_reads draws trace].
  change (hourly_params lat lon _ _) with (hourly_request w lat lon s).
  change (State (S (S (clock_reads s))) (draws s) _)
    with (hourly_started w lat lon s).
  rewrite Hreply, (raise_for_status_ok _ _ _ Hok), Hjson, Hh, Hlen, Hkind.
  reflexivity.
Qed.

(** The run of the fetch when the loop ends on an exception that is not a
    [RequestException]. *)
Lemma get_hourly_weather_loop_raises w lat lon e s times speeds directions
    n ex s' :
  upstream_hourly w lat lon s times speeds directions ->
  len_of times = Returns n ->
  for_append (hourly_point times speeds directions)
    (py_range (Z.min (e + 1) n)) [] w (hourly_started w lat lon s)
    = (Raises ex, s') ->
  only_request_exception (exn_kind_of ex) = false ->
  get_hourly_weather lat lon e w s = (Raises ex, s').
Proof.
  intros (r & d & h & Hreply & Hok & Hjson & Hh & -> & -> & ->) Hlen Hloop
         Hkind.
  cbv [get_hourly_weather try_except requests_get mbind M_bind mret M_ret
       emit open_meteo_reply datetime_now response_json py_get py_len lift
       raise print].
  cbn [clock_reads draws trace].
  change (hourly_params lat lon _ _) with (hourly_request w lat lon s).
  change (State (S (S (clock_reads s))) (draws s) _)
    with (hourly_started w lat lon s).
  rewrite Hreply, (raise_for_status_ok _ _ _ Hok), Hjson, Hh, Hlen, Hloop,
    Hkind.
  reflexivity.
Qed.

Lemma entry_or_uniform_list_run items i a b w s :
  0 <= i ->
  exists v,
    entry_or_uniform (PList items) i a b w s =
    (Returns v,
     State (clock_reads s)
       (draws s + (if i <? Z.of_nat (length items) then 0 else 1))
       (trace s))
    /\ forall x, items !! Z.to_nat i = Some x -> v = x.
Proof.
  intros Hi. destruct s as [c d t]. unfold entry_or_uniform, py_len, py_index.
  rewrite run_bind. cbn [len_of lift clock_reads draws trace].
  destruct (i <? Z.of_nat (length items)) eqn:Hlt.
  - rewrite item_of_list by exact Hi.
    destruct (lookup_lt_is_Some_2 items (Z.to_nat i)) as [x Hx]; [lia|].
    rewrite Hx. exists x. rewrite Nat.add_0_r. split; [reflexivity|].
    intros y [= <-]. reflexivity.
  - eexists. split.
    + cbv [random_uniform random_random next_draw mbind M_bind mret M_ret].
      cbn [clock_reads draws trace]. rewrite Nat.add_1_r. reflexivity.
    + intros x Hx. apply lookup_lt_Some in Hx. lia.
Qed.

Lemma hourly_point_list_run ts speeds directions i w s :
  0 <= i < Z.of_nat (length ts) ->
  exists point,
    hourly_point (PList ts) (PList speeds) (PList directions) i w s =
    (Returns point,
     State (clock_reads s)
       (draws s
        + (if i <? Z.of_nat (length speeds) then 0 else 1)
        + (if i <? Z.of_nat (length directions) then 0 else 1))
       (trace s)).
Proof.
  intros Hi. unfold hourly_point, py_index.
  rewrite run_bind, item_of_list by lia. cbn [lift].
  destruct (lookup_lt_is_Some_2 ts (Z.to_nat i)) as [t ->]; [lia|].
  rewrite run_bind.
  destruct (entry_or_uniform_list_run speeds i (base_wind_speed - 2)
              (base_wind_speed + 3) w s) as (speed & -> & _); [lia|].
  rewrite run_bind.
  match goal with
  | |- context [entry_or_uniform (PList directions) i 0 360 w ?s1] =>
      destruct (entry_or_uniform_list_run directions i 0 360 w s1)
        as (direction & -> & _); [lia|]
  end.
  cbn [clock_reads draws trace]. eexists. reflexivity.
Qed.

(** The loop over the slots [a .. a + len - 1] of three lists: it ends,
    and draws once for every slot a wind array does not reach. *)
Lemma for_append_list_run ts speeds directions len :
  forall a acc w s,
    (a + len <= length ts)%nat ->
    exists out,
      for_append (hourly_point (PList ts) (PList speeds) (PList directions))
        (Z.of_nat <$> seq a len) acc w s =
      (Returns out,
       State (clock_reads s)
         (draws s
          + (Nat.max (a + len) (length speeds) - Nat.max a (length speeds))
          + (Nat.max (a + len) (length directions)
             - Nat.max a (length directions)))
         (trace s)).
Proof.
  induction len as [|len IH]; intros a acc w s Hlen.
  - destruct s as [c d t]. exists acc. cbn [seq fmap list_fmap for_append].
    rewrite run_ret. cbn [clock_reads draws trace].
    rewrite Nat.add_0_r, !Nat.sub_diag, !Nat.add_0_r. reflexivity.
  - cbn [seq fmap list_fmap for_append]. rewrite run_bind.
    destruct (hourly_point_list_run ts speeds directions (Z.of_nat a) w s)
      as (point & ->); [lia|].
    match goal with
    | |- context [for_append _ _ ?acc1 w ?s1] =>
        destruct (IH (S a) acc1 w s1) as (out & Hout); [lia|]
    end.
    change (list_fmap nat Z Z.of_nat (seq (S a) len))
      with (Z.of_nat <$> seq (S a) len).
    rewrite Hout. exists out. cbn [clock_reads draws trace].
    f_equal. f_equal.
    destruct (Z.of_nat a <? Z.of_nat (length speeds)) eqn:Hs;
      destruct (Z.of_nat a <? Z.of_nat (length directions)) eqn:Hd; lia.
Qed.

(** The run of the fetch on three upstream lists. *)
Lemma get_hourly_weather_list_run w lat lon s e ts speeds directions :
  upstream_hourly w lat lon s (PList ts) (PList speeds) (PList directions) ->
  let count := Z.to_nat (Z.min (e + 1) (Z.of_nat (length ts))) in
  exists points,
    get_hourly_weather lat lon e w s =
    (Returns (PList points),
     State (S (S (clock_reads s)))
       (draws s + (count - length speeds) + (count - length directions))
       (trace s ++ [HttpGet base_url (hourly_request w lat lon s)]))
    /\ length points = count.
Proof.
  intros Hup count.
  destruct (for_append_list_run ts speeds directions count 0 [] w
              (hourly_started w lat lon s)) as (points & Hloop);
    [subst count; lia|].
  exists points.
  assert (Hrun : get_hourly_weather lat lon e w s
                 = (Returns (PList points),
                    State (S (S (clock_reads s)))
                      (draws s + (count - length speeds)
                       + (count - length directions))
                      (trace s
                       ++ [HttpGet base_url (hourly_request w lat lon s)]))).
  { eapply get_hourly_weather_run; [exact Hup | reflexivity |].
    unfold py_range. fold count. rewrite Hloop.
    cbn [hourly_started clock_reads draws trace]. f_equal. f_equal. lia. }
  split; [exact Hrun|].
  destruct (hourly_points_spec _ _ _ _ _ _ _ _ _ _ Hup Hrun)
    as (n & Hlen & Hn & _).
  cbn [len_of] in Hlen. injection Hlen as <-. exact Hn.
Qed.

Lemma item_of_raise_kind v i ex :
  item_of v i = Raises ex -> only_request_exception (exn_kind_of ex) = false.
Proof.
  destruct v; cbn [item_of]; cbv zeta;
    repeat match goal with
           | |- context [match ?x with _ => _ end] => destruct x
           end;
    intros [= <-]; reflexivity.
Qed.

Lemma entry_or_uniform_raise_kind xs i a b w s ex s' :
  entry_or_uniform xs i a b w s = (Raises ex, s') ->
  only_request_exception (exn_kind_of ex) = false.
Proof.
  unfold entry_or_uniform, py_len, py_index. rewrite run_bind.
  unfold lift at 1.
  destruct (len_of xs) as [n|ex0] eqn:Hlen.
  - destruct (i <? n).
    + unfold lift. intros [= H _]. eapply item_of_raise_kind, H.
    + cbv [random_uniform random_random next_draw mbind M_bind mret M_ret].
      discriminate.
  - intros [= <- _]. rewrite (len_of_raises_type_error _ _ Hlen). reflexivity.
Qed.

Lemma hourly_point_raise_kind times speeds directions i w s ex s' :
  hourly_point times speeds directions i w s = (Raises ex, s') ->
  only_request_exception (exn_kind_of ex) = false.
Proof.
  unfold hourly_point, py_index. rewrite run_bind. unfold lift at 1.
  destruct (item_of times i) as [t|ex0] eqn:Ht.
  - rewrite run_bind.
    destruct (entry_or_uniform speeds i _ _ w s) as [[speed|ex1] s1] eqn:Hs.
    + rewrite run_bind.
      destruct (entry_or_uniform directions i _ _ w s1) as [[dir|ex2] s2]
        eqn:Hd; [discriminate|].
      intros [= <- _]. eapply entry_or_uniform_raise_kind, Hd.
    + intros [= <- _]. eapply entry_or_uniform_raise_kind, Hs.
  - intros [= <- _]. eapply item_of_raise_kind, Ht.
Qed.

Lemma for_append_raise_kind body idxs acc w s ex s' :
  (forall i s0 ex0 s1,
     body i w s0 = (Raises ex0, s1) ->
     only_request_exception (exn_kind_of ex0) = false) ->
  for_append body idxs acc w s = (Raises ex, s') ->
  only_request_exception (exn_kind_of ex) = false.
Proof.
  intros Hbody. revert acc s.
  induction idxs as [|i rest IH]; intros acc s; cbn [for_append].
  - discriminate.
  - rewrite run_bind. destruct (body i w s) as [[point|ex0] s1] eqn:Hrun.
    + apply IH.
    + intros [= <- _]. eapply Hbody, Hrun.
Qed.

(** X6: [get_hourly_weather] hands back [None] exactly when its request
    fails in transport, or is answered with a status from 400 to 599, or
    with a body that is not JSON.  It has then read the clock twice (start
    and end date), sent its one request and printed one line, the fixed
    prefix followed by the text of the error, and has drawn nothing. *)
Theorem hourly_fetch_failure_absorbed w lat lon e s :
  (forall msg,
     failure_text (open_meteo w base_url (hourly_request w lat lon s))
       = Some msg ->
     get_hourly_weather lat lon e w s =
     (Returns PNone,
      State (S (S (clock_reads s))) (draws s)
        (trace s ++ [HttpGet base_url (hourly_request w lat lon s);
                     Print ("Error fetching hourly weather data: " +:+ msg)])))
  /\ (forall s',
        get_hourly_weather lat lon e w s = (Returns PNone, s') ->
        exists msg,
          failure_text (open_meteo w base_url (hourly_request w lat lon s))
            = Some msg).
Proof.
  split; [intros msg; apply get_hourly_weather_failed|].
  intros s' Hrun.
  destruct (failure_text (open_meteo w base_url (hourly_request w lat lon s)))
    as [msg|] eqn:Hfail; [exists msg; reflexivity|].
  exfalso.
  destruct (open_meteo w base_url (hourly_request w lat lon s)) as [r|text]
    eqn:Hreply; [|discriminate Hfail].
  destruct (failure_text_none r Hfail) as [Hok [data Hjson]].
  destruct (no_object_under "hourly" data) eqn:Hobj.
  { rewrite (get_hourly_weather_not_object w lat lon e s r data
               Hreply Hok Hjson Hobj) in Hrun. discriminate Hrun. }
  destruct data as [| | | | | |d]; try discriminate Hobj.
  cbn [no_object_under] in Hobj.
  destruct (default (PDict []) (assoc "hourly" d)) as [| | | | | |h] eqn:Hh;
    try discriminate Hobj.
  assert (Hup : upstream_hourly w lat lon s
                  (default (PList []) (assoc "time" h))
                  (default (PList []) (assoc "windspeed_10m" h))
                  (default (PList []) (assoc "winddirection_10m" h))).
  { exists r, d, h. repeat split; assumption. }
  destruct (len_of (default (PList []) (assoc "time" h))) as [n|ex] eqn:Hlen.
  - destruct (for_append
                (hourly_point (default (PList []) (assoc "time" h))
                   (default (PList []) (assoc "windspeed_10m" h))
                   (default (PList []) (assoc "winddirection_10m" h)))
                (py_range (Z.min (e + 1) n)) [] w (hourly_started w lat lon s))
      as [[points|ex] s1] eqn:Hloop.
    + rewrite (get_hourly_weather_run _ _ _ _ _ _ _ _ _ _ _ Hup Hlen Hloop)
        in Hrun. discriminate Hrun.
    + rewrite (get_hourly_weather_loop_raises _ _ _ _ _ _ _ _ _ _ _
                 Hup Hlen Hloop) in Hrun; [discriminate Hrun|].
      eapply for_append_raise_kind, Hloop.
      intros i s0 ex0 s2. apply hourly_point_raise_kind.
  - rewrite (get_hourly_weather_unsized_times _ _ _ _ _ _ _ _ _ Hup Hlen)
      in Hrun. discriminate Hrun.
Qed.

Lemma hourly_fetch_failure_absorbed_witness :
  get_hourly_weather here_lat here_lon 3 hourly_down fresh =
  (Returns PNone,
   State 2 0
     [HttpGet base_url (hourly_request hourly_down here_lat here_lon fresh);
      Print ("Error fetching hourly weather data: "
             +:+ "503 Server Error: Service Unavailable for url: "
             +:+ base_url)]).
Proof.
  apply (proj1 (hourly_fetch_failure_absorbed hourly_down here_lat here_lon 3
                  fresh)
           ("503 Server Error: Service Unavailable for url: " +:+ base_url)).
  vm_compute. reflexivity.
Defined.

(** X7: when the hourly request is answered with a passing status and a
    JSON body that is not an object, or an object whose ["hourly"] member is
    not an object, the [AttributeError] of [.get] leaves
    [get_hourly_weather] uncaught, for every hour, right after the request:
    nothing is printed and [None] is not handed back. *)
Theorem hourly_fetch_raises_on_non_object_body w lat lon e s r data :
  open_meteo w base_url (hourly_request w lat lon s) = HttpResponse r ->
  status_ok r = true ->
  json_body r = inr data ->
  no_object_under "hourly" data = true ->
  get_hourly_weather lat lon e w s
    = (Raises (Exn AttributeError (no_get_text "hourly" data)),
       State (S (S (clock_reads s))) (draws s)
         (trace s ++ [HttpGet base_url (hourly_request w lat lon s)])).
Proof. apply get_hourly_weather_not_object. Qed.

Lemma hourly_fetch_raises_on_non_object_body_witness :
  get_hourly_weather here_lat here_lon 3 array_body fresh
    = (Raises (Exn AttributeError "'list' object has no attribute 'get'"),
       State 2 0
         [HttpGet base_url (hourly_request array_body here_lat here_lon fresh)]).
Proof.
  apply (hourly_fetch_raises_on_non_object_body array_body here_lat here_lon
           3 fresh (Response 200 "OK" base_url (inr (PList []))) (PList [])
           eq_refl eq_refl eq_refl eq_refl).
Defined.

(** X8: when the hourly request is answered but the ["time"] member has no
    length ([null], a number, a boolean), [len(times)] raises a [TypeError]
    that leaves [get_hourly_weather] uncaught, for every hour, negative ones
    included, before any point is built. *)
Theorem hourly_fetch_raises_on_unsized_times w lat lon e s times speeds
    directions ex :
  upstream_hourly w lat lon s times speeds directions ->
  len_of times = Raises ex ->
  exn_kind_of ex = TypeError
  /\ get_hourly_weather lat lon e w s
     = (Raises ex,
        State (S (S (clock_reads s))) (draws s)
          (trace s ++ [HttpGet base_url (hourly_request w lat lon s)])).
Proof.
  intros Hup Hlen. split; [eapply len_of_raises_type_error, Hlen|].
  apply (get_hourly_weather_unsized_times _ _ _ _ _ _ _ _ _ Hup Hlen).
Qed.

Lemma hourly_fetch_raises_on_unsized_times_witness :
  exists s',
    get_hourly_weather here_lat here_lon (-1) null_times fresh
      = (Raises (Exn TypeError "object of type 'NoneType' has no len()"), s').
Proof.
  eexists.
  apply (hourly_fetch_raises_on_unsized_times null_times here_lat here_lon
           (-1) fresh PNone (PList day_speeds) (PList day_directions)).
  - eexists _, _, _. repeat split; vm_compute; reflexivity.
  - reflexivity.
Defined.

(** X9: when the hourly request is answered with an object whose hourly
    member has no ["time"] key (or has no hourly member at all), or an empty
    time array, the fetch hands back the empty list for every hour, whatever
    the wind members are, even when they are not arrays: they are only
    looked at inside the loop, which does not run. *)
Theorem hourly_fetch_empty_without_times w lat lon e s r d h :
  open_meteo w base_url (hourly_request w lat lon s) = HttpResponse r ->
  status_ok r = true ->
  json_body r = inr (PDict d) ->
  default (PDict []) (assoc "hourly" d) = PDict h ->
  assoc "time" h = None \/ assoc "time" h = Some (PList []) ->
  get_hourly_weather lat lon e w s
    = (Returns (PList []),
       State (S (S (clock_reads s))) (draws s)
         (trace s ++ [HttpGet base_url (hourly_request w lat lon s)])).
Proof.
  intros Hreply Hok Hjson Hh Htime.
  assert (Htimes : default (PList []) (assoc "time" h) = PList []).
  { destruct Htime as [->| ->]; reflexivity. }
  eapply (get_hourly_weather_run lat lon e w s (PList [])
            (default (PList []) (assoc "windspeed_10m" h))
            (default (PList []) (assoc "winddirection_10m" h)) 0).
  - exists r, d, h. rewrite Htimes. repeat split; assumption.
  - reflexivity.
  - unfold py_range. replace (Z.to_nat (Z.min (e + 1) 0)) with 0%nat by lia.
    reflexivity.
Qed.

Lemma hourly_fetch_empty_without_times_witness :
  get_hourly_weather here_lat here_lon 30 timeless fresh
    = (Returns (PList []),
       State 2 0
         [HttpGet base_url (hourly_request timeless here_lat here_lon fresh)]).
Proof.
  apply (hourly_fetch_empty_without_times timeless here_lat here_lon 30 fresh
           (Response 200 "OK" base_url
              (inr (PDict [("hourly",
                 PDict [("windspeed_10m", PNone);
                        ("winddirection_10m", PNone)])])))
           [("hourly",
             PDict [("windspeed_10m", PNone); ("winddirection_10m", PNone)])]
           [("windspeed_10m", PNone); ("winddirection_10m", PNone)]
           eq_refl eq_refl eq_refl eq_refl).
  left. reflexivity.
Defined.

(** X10: with three lists upstream the fetch ends with
    [min(end_hour + 1, number of time stamps)] points (none for a negative
    hour), has read the clock twice, has added its one request to the trace
    and has drawn from the generator once for every slot the wind-speed list
    does not reach plus once for every slot the wind-direction list does not
    reach. *)
Theorem hourly_fetch_draw_count w lat lon s e ts speeds directions :
  upstream_hourly w lat lon s (PList ts) (PList speeds) (PList directions) ->
  exists points s',
    get_hourly_weather lat lon e w s = (Returns (PList points), s')
    /\ length points = Z.to_nat (Z.min (e + 1) (Z.of_nat (length ts)))
    /\ clock_reads s' = S (S (clock_reads s))
    /\ trace s' = trace s ++ [HttpGet base_url (hourly_request w lat lon s)]
    /\ draws s'
       = (draws s + (length points - length speeds)
          + (length points - length directions))%nat.
Proof.
  intros Hup.
  destruct (get_hourly_weather_list_run w lat lon s e ts speeds directions Hup)
    as (points & Hrun & Hlen).
  eexists points, _. split; [exact Hrun|].
  cbn [clock_reads draws trace]. rewrite Hlen. repeat split.
Qed.

Lemma short_wind_hourly :
  upstream_hourly short_wind here_lat here_lon fresh
    (PList day_times) (PList (take 5 day_speeds))
    (PList (take 2 day_directions)).
Proof.
  eexists _, _, _. repeat split; vm_compute; reflexivity.
Qed.

Lemma hourly_fetch_draw_count_witness :
  exists points s',
    get_hourly_weather here_lat here_lon 9 short_wind fresh
      = (Returns (PList points), s')
    /\ length points = 10%nat
    /\ draws s' = 13%nat.
Proof.
  destruct (hourly_fetch_draw_count short_wind here_lat here_lon fresh 9
              day_times (take 5 day_speeds) (take 2 day_directions)
              short_wind_hourly)
    as (points & s' & Hrun & Hlen & _ & _ & Hdraws).
  exists points, s'. split; [exact Hrun|].
  change (length points = 10%nat) in Hlen.
  split; [exact Hlen|]. rewrite Hdraws, Hlen. reflexivity.
Defined.

(** X11: when the three upstream lists all reach the number of points
    produced, the fetch draws nothing and point [k] is exactly the [k]-th
    time stamp, wind speed and wind direction of the service, under the keys
    time, wind_speed and wind_direction. *)
Theorem hourly_fetch_projects_complete_arrays w lat lon s e ts speeds
    directions :
  upstream_hourly w lat lon s (PList ts) (PList speeds) (PList directions) ->
  (Z.to_nat (Z.min (e + 1) (Z.of_nat (length ts))) <= length speeds)%nat ->
  (Z.to_nat (Z.min (e + 1) (Z.of_nat (length ts))) <= length directions)%nat ->
  exists points s',
    get_hourly_weather lat lon e w s = (Returns (PList points), s')
    /\ draws s' = draws s
    /\ length points = Z.to_nat (Z.min (e + 1) (Z.of_nat (length ts)))
    /\ forall k point, points !! k = Some point ->
         exists t speed direction,
           ts !! k = Some t /\ speeds !! k = Some speed
           /\ directions !! k = Some direction
           /\ point = hourly_point_of t speed direction.
Proof.
  intros Hup Hs Hd.
  destruct (get_hourly_weather_list_run w lat lon s e ts speeds directions Hup)
    as (points & Hrun & Hlen).
  eexists points, _. split; [exact Hrun|].
  cbn [draws]. split; [lia|]. split; [exact Hlen|].
  intros k point Hk.
  destruct (hourly_points_spec _ _ _ _ _ _ _ _ _ _ Hup Hrun)
    as (n & _ & _ & Hall).
  destruct (Hall k point Hk)
    as (t & speed & direction & -> & Ht & (ns & Hns & Hspeed)
        & (nd & Hnd & Hdir)).
  pose proof (lookup_lt_Some _ _ _ Hk) as Hlt.
  cbn [len_of] in Hns, Hnd. injection Hns as <-. injection Hnd as <-.
  assert ((Z.of_nat k <? Z.of_nat (length speeds)) = true) as Hks by lia.
  assert ((Z.of_nat k <? Z.of_nat (length directions)) = true) as Hkd by lia.
  rewrite Hks in Hspeed. rewrite Hkd in Hdir.
  rewrite item_of_list, Nat2Z.id in Ht, Hspeed, Hdir by lia.
  destruct (ts !! k) as [t'|]; [|discriminate Ht].
  destruct (speeds !! k) as [speed'|]; [|discriminate Hspeed].
  destruct (directions !! k) as [direction'|]; [|discriminate Hdir].
  injection Ht as <-. injection Hspeed as <-. injection Hdir as <-.
  exists t', speed', direction'. repeat split.
Qed.

Lemma hourly_fetch_projects_complete_arrays_witness :
  exists points s',
    get_hourly_weather here_lat here_lon 3 everything_works fresh
      = (Returns (PList points), s')
    /\ draws s' = 0%nat
    /\ length points = 4%nat.
Proof.
  destruct (hourly_fetch_projects_complete_arrays everything_works here_lat
              here_lon fresh 3 day_times day_speeds day_directions
              everything_works_hourly)
    as (points & s' & Hrun & Hdraws & Hlen & _).
  - vm_compute. lia.
  - vm_compute. lia.
  - exists points, s'. repeat split; assumption.
Defined.

Lemma py_range_cons n : 0 < n -> exists rest, py_range n = 0 :: rest.
Proof.
  intros Hn. unfold py_range.
  destruct (Z.to_nat n) as [|m] eqn:Hm; [lia|].
  eexists. reflexivity.
Qed.

Lemma hourly_point_unsized_speeds t ts speeds directions w s ex :
  len_of speeds = Raises ex ->
  hourly_point (PList (t :: ts)) speeds directions 0 w s = (Raises ex, s).
Proof.
  intros Hlen. unfold hourly_point, py_index.
  rewrite run_bind, item_of_list by lia. cbn [lift].
  change ((t :: ts) !! Z.to_nat 0) with (Some t). cbv beta iota.
  rewrite run_bind. unfold entry_or_uniform, py_len.
  rewrite run_bind, Hlen. reflexivity.
Qed.

Lemma hourly_point_unsized_directions t ts items directions w s ex :
  len_of directions = Raises ex ->
  exists s',
    hourly_point (PList (t :: ts)) (PList items) directions 0 w s
      = (Raises ex, s').
Proof.
  intros Hlen. unfold hourly_point, py_index.
  rewrite run_bind, item_of_list by lia. cbn [lift].
  change ((t :: ts) !! Z.to_nat 0) with (Some t). cbv beta iota.
  rewrite run_bind.
  destruct (entry_or_uniform_list_run items 0 (base_wind_speed - 2)
              (base_wind_speed + 3) w s) as (speed & -> & _); [lia|].
  rewrite run_bind. unfold entry_or_uniform at 1, py_len.
  rewrite run_bind, Hlen. eexists. reflexivity.
Qed.

(** X12: a wind member that has no length ([null], a number) is only
    noticed when the loop runs: with at least one time stamp and a hour of
    at least 0, the [TypeError] of [len] on the wind-speed member leaves the
    fetch uncaught at the first slot, and so does the one on the
    wind-direction member when the wind speeds are a list. *)
Theorem hourly_fetch_raises_on_unsized_wind w lat lon e s t ts speeds
    directions ex :
  upstream_hourly w lat lon s (PList (t :: ts)) speeds directions ->
  0 <= e ->
  (len_of speeds = Raises ex ->
   get_hourly_weather lat lon e w s = (Raises ex, hourly_started w lat lon s))
  /\ (forall items,
        speeds = PList items ->
        len_of directions = Raises ex ->
        exists s', get_hourly_weather lat lon e w s = (Raises ex, s')).
Proof.
  intros Hup He.
  destruct (py_range_cons (Z.min (e + 1) (Z.of_nat (length (t :: ts)))))
    as [rest Hrange]; [cbn [length]; lia|].
  split.
  - intros Hlen.
    eapply get_hourly_weather_loop_raises;
      [exact Hup | reflexivity | | ].
    + rewrite Hrange. cbn [for_append].
      rewrite run_bind, (hourly_point_unsized_speeds _ _ _ _ _ _ _ Hlen).
      reflexivity.
    + rewrite (len_of_raises_type_error _ _ Hlen). reflexivity.
  - intros items -> Hlen.
    destruct (hourly_point_unsized_directions t ts items directions w
                (hourly_started w lat lon s) ex Hlen) as [s' Hpoint].
    exists s'.
    eapply get_hourly_weather_loop_raises;
      [exact Hup | reflexivity | | ].
    + rewrite Hrange. cbn [for_append]. rewrite run_bind, Hpoint.
      reflexivity.
    + rewrite (len_of_raises_type_error _ _ Hlen). reflexivity.
Qed.

Lemma hourly_fetch_raises_on_unsized_wind_witness :
  get_hourly_weather here_lat here_lon 0 null_speeds fresh
    = (Raises (Exn TypeError "object of type 'NoneType' has no len()"),
       hourly_started null_speeds here_lat here_lon fresh).
Proof.
  apply (proj1 (hourly_fetch_raises_on_unsized_wind null_speeds here_lat
                  here_lon 0 fresh (hour_label 0)
                  (hour_label <$> seq 1 23) PNone (PList day_directions)
                  (Exn TypeError "object of type 'NoneType' has no len()")
                  ltac:(eexists _, _, _; repeat split; vm_compute; reflexivity)
                  ltac:(lia))).
  reflexivity.
Defined.

(** ** [handler] *)

(** X13: whenever the handler hands back a value it is one of its five
    replies: the 400, the 404, one of the two 500s, each with its fixed
    message, or a 200 whose body holds a current-weather dict and a list of
    hourly points.  No other status and no other body shape is produced. *)
Theorem handler_replies w req s v s' :
  handler req w s = (Returns v, s') ->
  v = bad_request \/ v = not_found \/ v = current_failed \/ v = hourly_failed
  \/ exists fields points,
       v = reply 200 (PDict [("current_weather", PDict fields);
                             ("hourly_weather", PList points)]).
Proof.
  unfold handler.
  destruct (query req !! "city") as [city|];
    [|intros [= <- _]; left; reflexivity].
  destruct (query req !! "hour") as [hour|];
    [|intros [= <- _]; left; reflexivity].
  rewrite run_bind, get_coordinates_run.
  destruct (coordinates_of _) as [lat lon].
  destruct (py_is_none lat || py_is_none lon);
    [intros [= <- _]; right; left; reflexivity|].
  rewrite run_bind.
  destruct (get_current_weather lat lon w _) as [[cw|e] s2] eqn:Hcur;
    [|discriminate].
  destruct (py_is_none cw) eqn:Hcw;
    [intros [= <- _]; right; right; left; reflexivity|].
  rewrite run_bind.
  destruct (py_int hour w s2) as [[h|e] s3]; [|discriminate].
  rewrite run_bind.
  destruct (get_hourly_weather lat lon h w s3) as [[hw|e] s4] eqn:Hhr;
    [|discriminate].
  destruct (py_is_none hw) eqn:Hhw;
    [intros [= <- _]; right; right; right; left; reflexivity|].
  intros [= <- _]. right. right. right. right.
  destruct (get_current_weather_returns _ _ _ _ _ _ Hcur)
    as [->|(c & fields & _ & ->)]; [discriminate Hcw|].
  destruct (hourly_value_is_list _ _ _ _ _ _ _ Hhr Hhw)
    as (points & -> & _).
  exists fields, points. reflexivity.
Qed.

Lemma handler_replies_witness :
  exists v s',
    handler (ask "Paris" "3") hourly_down fresh = (Returns v, s')
    /\ (v = bad_request \/ v = not_found \/ v = current_failed
        \/ v = hourly_failed
        \/ exists fields points,
             v = reply 200 (PDict [("current_weather", PDict fields);
                                   ("hourly_weather", PList points)])).
Proof.
  eexists _, _.
  assert (Hrun : handler (ask "Paris" "3") hourly_down fresh
                 = (Returns _, _)) by (vm_compute; reflexivity).
  split; [exact Hrun|].
  exact (handler_replies hourly_down (ask "Paris" "3") fresh _ _ Hrun).
Defined.

Lemma calls_prints prints :
  forallb is_print prints = true -> calls prints = [].
Proof.
  induction prints as [|ev prints IH]; cbn; [reflexivity|].
  intros H. apply andb_prop in H as [Hev Hrest].
  rewrite Hev. cbn. apply IH, Hrest.
Qed.

Lemma calls_app evs1 evs2 : calls (evs1 ++ evs2) = calls evs1 ++ calls evs2.
Proof. apply List.filter_app. Qed.

(** A guarded block that starts with a request and then only prints adds
    that request and prints to the trace, however it ends. *)
Lemma request_then_prints {A : Type} url params (k : response -> M A)
    (h : exn -> M A) w s :
  (forall r, appends_only is_print (k r)) ->
  (forall e, appends_only is_print (h e)) ->
  exists prints,
    trace (try_except (r ← requests_get url params; k r)
             only_request_exception h w s).2
      = trace s ++ HttpGet url params :: prints
    /\ forallb is_print prints = true.
Proof.
  intros Hk Hh. unfold try_except, requests_get.
  rewrite !run_bind. cbn [emit]. unfold open_meteo_reply at 1.
  set (s1 := State _ _ (trace s ++ [HttpGet url params])).
  destruct (open_meteo w url params) as [r|text].
  - destruct (Hk r w s1) as (evs & Ht & Hp).
    destruct (k r w s1) as [[a|e] s2]; cbn [snd] in *.
    + exists evs. rewrite Ht. subst s1. cbn [trace].
      rewrite <- app_assoc. split; [reflexivity | exact Hp].
    + destruct (only_request_exception (exn_kind_of e)).
      * destruct (Hh e w s2) as (evs2 & Ht2 & Hp2).
        exists (evs ++ evs2). rewrite Ht2, Ht. subst s1. cbn [trace].
        rewrite <- !app_assoc, forallb_app, Hp, Hp2.
        split; reflexivity.
      * exists evs. cbn [snd]. rewrite Ht. subst s1. cbn [trace].
        rewrite <- app_assoc. split; [reflexivity | exact Hp].
  - cbn [only_request_exception exn_kind_of].
    destruct (Hh (Exn RequestException text) w s1) as (evs & Ht & Hp).
    exists evs. rewrite Ht. subst s1. cbn [trace].
    rewrite <- app_assoc. split; [reflexivity | exact Hp].
Qed.

Lemma get_current_weather_trace lat lon w s :
  exists prints,
    trace (get_current_weather lat lon w s).2
      = trace s ++ HttpGet base_url (current_params lat lon) :: prints
    /\ forallb is_print prints = true.
Proof.
  unfold get_current_weather. apply request_then_prints.
  - intros r. appends;
      try first [ apply appends_raise_for_status | apply appends_response_json
                | apply appends_py_get | apply appends_random_randint ].
  - intros e. unfold print. appends.
Qed.

Lemma get_hourly_weather_trace lat lon e w s :
  exists prints,
    trace (get_hourly_weather lat lon e w s).2
      = trace s ++ HttpGet base_url (hourly_request w lat lon s) :: prints
    /\ forallb is_print prints = true.
Proof.
  unfold get_hourly_weather. rewrite run_bind. cbn [datetime_now].
  rewrite run_bind. cbn [datetime_now clock_reads draws trace].
  change (hourly_params lat lon _ _) with (hourly_request w lat lon s).
  match goal with
  | |- context [try_except ?body _ ?h w ?s2] =>
      change (trace s) with (trace s2)
  end.
  apply request_then_prints.
  - intros r. unfold py_len. appends;
      try first [ apply appends_raise_for_status | apply appends_response_json
                | apply appends_py_get
                | apply appends_for_append; intros; apply appends_hourly_point ].
  - intros ex. unfold print. appends.
Qed.

(** The calls of a run in which both parameters are present. *)
Lemma handler_calls_when_present w req s city hour :
  query req !! "city" = Some city ->
  query req !! "hour" = Some hour ->
  exists new,
    trace (handler req w s).2 = trace s ++ new
    /\ (calls new = [Geocode "weather_app" city]
        /\ (forall loc, nominatim w "weather_app" city <> GeoMatch loc)
        \/ exists loc,
             nominatim w "weather_app" city = GeoMatch loc
             /\ let lat := PFloat (latitude_of loc) in
                let lon := PFloat (longitude_of loc) in
                calls new
                = [Geocode "weather_app" city;
                   HttpGet base_url (current_params lat lon)]
                \/ exists start_date end_date,
                     calls new
                     = [Geocode "weather_app" city;
                        HttpGet base_url (current_params lat lon);
                        HttpGet base_url
                          (hourly_params lat lon start_date end_date)]).
Proof.
  intros Hcity Hhour.
  unfold handler. rewrite Hcity, Hhour.
  rewrite run_bind, get_coordinates_run.
  destruct (nominatim w "weather_app" city) as [loc| |e0] eqn:Hgeo;
    cbn [coordinates_of geocode_prints py_is_none orb].
  2:{ eexists. cbn [snd trace]. split; [reflexivity|]. left.
      split; [reflexivity | discriminate]. }
  2:{ eexists. cbn [snd trace]. split; [reflexivity|]. left.
      split; [reflexivity | discriminate]. }
  set (lat := PFloat (latitude_of loc)). set (lon := PFloat (longitude_of loc)).
  set (s1 := State _ _ _).
  assert (Hs1 : trace s1 = trace s ++ [Geocode "weather_app" city])
    by reflexivity.
  rewrite run_bind.
  destruct (get_current_weather_trace lat lon w s1) as (p1 & Ht1 & Hp1).
  assert (Htwo : forall s2,
             trace s2 = trace s1
                        ++ HttpGet base_url (current_params lat lon) :: p1 ->
             exists new,
               trace s2 = trace s ++ new
               /\ calls new = [Geocode "weather_app" city;
                               HttpGet base_url (current_params lat lon)]).
  { intros s2 Hs2. eexists. rewrite Hs2, Hs1, <- app_assoc.
    split; [reflexivity|]. cbn [app calls List.filter is_print negb].
    f_equal. f_equal. apply calls_prints, Hp1. }
  assert (Hend2 : forall s2,
             trace s2 = trace s1
                        ++ HttpGet base_url (current_params lat lon) :: p1 ->
             exists new,
               trace s2 = trace s ++ new
               /\ (calls new = [Geocode "weather_app" city]
                   /\ (forall loc0, GeoMatch loc <> GeoMatch loc0)
                   \/ exists loc0,
                        GeoMatch loc = GeoMatch loc0
                        /\ let lat := PFloat (latitude_of loc0) in
                           let lon := PFloat (longitude_of loc0) in
                           calls new
                           = [Geocode "weather_app" city;
                              HttpGet base_url (current_params lat lon)]
                           \/ exists start_date end_date,
                                calls new
                                = [Geocode "weather_app" city;
                                   HttpGet base_url (current_params lat lon);
                                   HttpGet base_url
                                     (hourly_params lat lon start_date
                                        end_date)])).
  { intros s2 Hs2. destruct (Htwo s2 Hs2) as (new & Hnew & Hcalls).
    exists new. split; [exact Hnew|]. right. exists loc.
    split; [reflexivity|]. left. exact Hcalls. }
  destruct (get_current_weather lat lon w s1) as [[cw|e1] s2];
    cbn [snd] in Ht1; [|apply Hend2, Ht1].
  destruct (py_is_none cw); [apply Hend2, Ht1|].
  rewrite run_bind. unfold py_int.
  destruct (parse_int hour) as [h|]; [|apply Hend2, Ht1].
  rewrite run_ret, run_bind.
  destruct (get_hourly_weather_trace lat lon h w s2) as (p2 & Ht2 & Hp2).
  assert (Hthree : exists new,
             trace (get_hourly_weather lat lon h w s2).2 = trace s ++ new
             /\ calls new = [Geocode "weather_app" city;
                             HttpGet base_url (current_params lat lon);
                             HttpGet base_url (hourly_request w lat lon s2)]).
  { eexists. rewrite Ht2, Ht1, Hs1, <- !app_assoc.
    split; [reflexivity|]. cbn [app calls List.filter is_print negb].
    f_equal. f_equal. fold (calls (p1 ++ HttpGet base_url
                                     (hourly_request w lat lon s2) :: p2)).
    rewrite calls_app, (calls_prints p1 Hp1).
    cbn [app calls List.filter is_print negb]. f_equal.
    apply calls_prints, Hp2. }
  destruct Hthree as (new & Hnew & Hcalls).
  exists new. split.
  - destruct (get_hourly_weather lat lon h w s2) as [[hw|e2] s3];
      cbn [snd] in *; [destruct (py_is_none hw)|]; exact Hnew.
  - right. exists loc. split; [reflexivity|]. right.
    eexists _, _. exact Hcalls.
Qed.

(** X14: in every run the outgoing calls of the handler are an initial part
    of one fixed sequence: the geocoder query for the city, then the
    current-weather request, then the hourly request, the two requests
    carrying the coordinates of the geocoder's match.  Either a parameter is
    missing and nothing is called, or both are present and the geocoder is
    queried; no request is sent unless the geocoder found a match, and no
    call is ever made twice. *)
Theorem handler_call_sequence w req s :
  exists new,
    trace (handler req w s).2 = trace s ++ new
    /\ ((calls new = []
         /\ (query req !! "city" = None \/ query req !! "hour" = None))
        \/ exists city hour,
             query req !! "city" = Some city
             /\ query req !! "hour" = Some hour
             /\ (calls new = [Geocode "weather_app" city]
                 /\ (forall loc, nominatim w "weather_app" city <> GeoMatch loc)
                 \/ exists loc,
                      nominatim w "weather_app" city = GeoMatch loc
                      /\ let lat := PFloat (latitude_of loc) in
                         let lon := PFloat (longitude_of loc) in
                         calls new
                         = [Geocode "weather_app" city;
                            HttpGet base_url (current_params lat lon)]
                         \/ exists start_date end_date,
                              calls new
                              = [Geocode "weather_app" city;
                                 HttpGet base_url (current_params lat lon);
                                 HttpGet base_url
                                   (hourly_params lat lon start_date
                                      end_date)])).
Proof.
  destruct (query req !! "city") as [city|] eqn:Hcity.
  2:{ exists []. rewrite app_nil_r. split.
      - unfold handler. rewrite Hcity. reflexivity.
      - left. split; [reflexivity | left; reflexivity]. }
  destruct (query req !! "hour") as [hour|] eqn:Hhour.
  2:{ exists []. rewrite app_nil_r. split.
      - unfold handler. rewrite Hcity, Hhour. reflexivity.
      - left. split; [reflexivity | right; reflexivity]. }
  destruct (handler_calls_when_present w req s city hour Hcity Hhour)
    as (new & Hnew & Hshape).
  exists new. split; [exact Hnew|]. right. exists city, hour.
  split; [reflexivity|]. split; [reflexivity|]. exact Hshape.
Qed.

Lemma digit_char_inj a b :
  String.get 0 (dec_digit a) = String.get 0 (dec_digit b) ->
  (a mod 10 = b mod 10)%nat.
Proof.
  unfold dec_digit. cbv [String.get]. intros H.
  apply (f_equal (fun o => match o with
                           | Some c => nat_of_ascii c
                           | None => 0%nat
                           end)) in H.
  cbv beta iota in H.
  pose proof (Nat.mod_upper_bound a 10 ltac:(discriminate)) as Ha.
  pose proof (Nat.mod_upper_bound b 10 ltac:(discriminate)) as Hb.
  revert H Ha Hb. generalize (a mod 10)%nat (b mod 10)%nat. intros x y H Hx Hy.
  rewrite !nat_ascii_embedding in H by lia. lia.
Qed.

Lemma two_digits n :
  (n < 100 -> 10 * ((n / 10) mod 10) + n mod 10 = n)%nat.
Proof.
  intros Hn.
  assert (Hall : forallb
                   (fun k => 10 * ((k / 10) mod 10) + k mod 10 =? k)%nat
                   (seq 0 100) = true) by (vm_compute; reflexivity).
  rewrite forallb_forall in Hall.
  apply Nat.eqb_eq, Hall, in_seq. lia.
Qed.

Lemma four_digits n :
  (n < 10 * 1000 ->
   1000 * ((n / 1000) mod 10) + 100 * ((n / 100) mod 10)
   + 10 * ((n / 10) mod 10) + n mod 10 = n)%nat.
Proof.
  intros Hn.
  assert (Hall : forallb
                   (fun k =>
                      1000 * ((k / 1000) mod 10) + 100 * ((k / 100) mod 10)
                      + 10 * ((k / 10) mod 10) + k mod 10 =? k)%nat
                   (seq 0 (10 * 1000)) = true) by (vm_compute; reflexivity).
  rewrite forallb_forall in Hall.
  apply Nat.eqb_eq, Hall, in_seq. lia.
Qed.

(** On calendar dates the rendering year-month-day loses nothing. *)
Lemma strftime_date_inj d1 d2 :
  calendar_date d1 -> calendar_date d2 ->
  strftime_date d1 = strftime_date d2 -> same_day d1 d2.
Proof.
  intros (Hy1 & Hm1 & Hd1) (Hy2 & Hm2 & Hd2) H.
  assert (Hget : forall k,
             String.get k (strftime_date d1) = String.get k (strftime_date d2))
    by (intros k; rewrite H; reflexivity).
  pose proof (digit_char_inj (dt_year d1 / 1000) (dt_year d2 / 1000)
                (Hget 0%nat)) as Ya.
  pose proof (digit_char_inj (dt_year d1 / 100) (dt_year d2 / 100)
                (Hget 1%nat)) as Yb.
  pose proof (digit_char_inj (dt_year d1 / 10) (dt_year d2 / 10)
                (Hget 2%nat)) as Yc.
  pose proof (digit_char_inj (dt_year d1) (dt_year d2) (Hget 3%nat)) as Yd.
  pose proof (digit_char_inj (dt_month d1 / 10) (dt_month d2 / 10)
                (Hget 5%nat)) as Ma.
  pose proof (digit_char_inj (dt_month d1) (dt_month d2) (Hget 6%nat)) as Mb.
  pose proof (digit_char_inj (dt_day d1 / 10) (dt_day d2 / 10)
                (Hget 8%nat)) as Da.
  pose proof (digit_char_inj (dt_day d1) (dt_day d2) (Hget 9%nat)) as Db.
  pose proof (four_digits (dt_year d1) ltac:(lia)) as Y1.
  pose proof (four_digits (dt_year d2) ltac:(lia)) as Y2.
  pose proof (two_digits (dt_month d1) ltac:(lia)) as M1.
  pose proof (two_digits (dt_month d2) ltac:(lia)) as M2.
  pose proof (two_digits (dt_day d1) ltac:(lia)) as D1.
  pose proof (two_digits (dt_day d2) ltac:(lia)) as D2.
  rewrite Ya, Yb, Yc, Yd in Y1. rewrite Ma, Mb in M1. rewrite Da, Db in D1.
  repeat split; congruence.
Qed.

(** X15: however an hourly fetch ends, the first thing it adds to the
    trace is its request to the forecast URL, and nothing but prints
    follows.  The request asks for
    ["windspeed_10m,winddirection_10m"] with an automatic time zone at the
    given coordinates, and its start and end dates are two successive
    readings of the clock: for calendar dates the two parameters are equal
    exactly when both readings fall on the same day, so they differ when
    midnight falls between the two readings. *)
Theorem hourly_request_dates lat lon e w s :
  exists params prints,
    trace (get_hourly_weather lat lon e w s).2
      = trace s ++ HttpGet base_url params :: prints
    /\ forallb is_print prints = true
    /\ fst <$> params
       = ["latitude"; "longitude"; "hourly"; "timezone"; "start_date";
          "end_date"]
    /\ assoc "latitude" params = Some lat
    /\ assoc "longitude" params = Some lon
    /\ assoc "hourly" params = Some (PStr "windspeed_10m,winddirection_10m")
    /\ assoc "timezone" params = Some (PStr "auto")
    /\ assoc "start_date" params
       = Some (PStr (strftime_date (wall_clock w (clock_reads s))))
    /\ assoc "end_date" params
       = Some (PStr (strftime_date (wall_clock w (S (clock_reads s)))))
    /\ (calendar_date (wall_clock w (clock_reads s)) ->
        calendar_date (wall_clock w (S (clock_reads s))) ->
        (assoc "start_date" params = assoc "end_date" params
         <-> same_day (wall_clock w (clock_reads s))
               (wall_clock w (S (clock_reads s))))).
Proof.
  destruct (get_hourly_weather_trace lat lon e w s) as (prints & Ht & Hp).
  exists (hourly_request w lat lon s), prints.
  split; [exact Ht|]. split; [exact Hp|].
  do 7 (split; [reflexivity|]).
  intros Hc1 Hc2.
  change (assoc "start_date" (hourly_request w lat lon s))
    with (Some (PStr (strftime_date (wall_clock w (clock_reads s))))).
  change (assoc "end_date" (hourly_request w lat lon s))
    with (Some (PStr (strftime_date (wall_clock w (S (clock_reads s)))))).
  split.
  - intros Heq. apply strftime_date_inj; [exact Hc1 | exact Hc2 |].
    congruence.
  - intros (Hy & Hm & Hd). unfold strftime_date.
    rewrite Hy, Hm, Hd. reflexivity.
Qed.

Lemma hourly_request_dates_witness :
  exists params,
    assoc "start_date" params = Some (PStr "2024-05-17")
    /\ assoc "end_date" params = Some (PStr "2024-05-18")
    /\ assoc "start_date" params <> assoc "end_date" params
    /\ exists prints,
         trace (get_hourly_weather here_lat here_lon 3 midnight_world fresh).2
           = trace fresh ++ HttpGet base_url params :: prints.
Proof.
  destruct (hourly_request_dates here_lat here_lon 3 midnight_world fresh)
    as (params & prints & Ht & _ & _ & _ & _ & _ & _ & Hstart & Hend & Hiff).
  exists params. split; [exact Hstart|]. split; [exact Hend|]. split.
  - intros Heq. apply Hiff in Heq.
    + destruct Heq as (_ & _ & Hday). discriminate Hday.
    + unfold calendar_date.
      cbn [wall_clock midnight_world around_midnight clock_reads fresh
           dt_year dt_month dt_day]. lia.
    + unfold calendar_date.
      cbn [wall_clock midnight_world around_midnight clock_reads fresh
           dt_year dt_month dt_day]. lia.
  - exists prints. exact Ht.
Defined.
